(** * GCU Coffee Machine: a shallow embedding of [coffee_machine.py]

    The program is one class, [CoffeeMachine], whose methods mutate the
    object ([self.resources], [self.money_collected], [self.orders]) and talk
    to the terminal through [print] and [input].  The embedding keeps that
    shape: every method is a computation in a small state-and-exception monad
    over a store made of the object and of the terminal, and the interactive
    loop of [run] is a recursion over that monad. *)

From Stdlib Require Import ZArith Ascii Lia.
From stdpp Require Import base option list strings pretty gmap.

Local Open Scope Z_scope.

(** ** Data model *)

(** [class Drink]: a name, three resource requirements and a cost.  Python
    integers are unbounded, hence [Z]. *)
Module Drink.
Record t : Type := Build
  { name : string; water : Z; milk : Z; coffee : Z; cost : Z }.
End Drink.

(** [class Order]: what [Order.__init__] stores. *)
Module Order.
Record t : Type := Build
  { drink_name : string; amount_paid : Z; timestamp : string }.
End Order.

(** [self.resources] is a dict that only ever holds the three keys
    ['water'], ['milk'] and ['coffee']; no key is added or removed anywhere, so
    it is a record with one field per key. *)
Record Resources : Type := mkResources
  { water : Z; milk : Z; coffee : Z }.

(** The attributes of a [CoffeeMachine] object.  [self.menu] is a dict looked
    up with a key typed by the user, so it is a finite map. *)
Record CoffeeMachine : Type := mkCoffeeMachine
  { resources : Resources;
    menu : gmap string Drink.t;
    money_collected : Z;
    orders : list Order.t }.

(** What reaches the terminal: the text of a [print] call (the newline that
    [print] adds is left implicit) and the prompt of an [input] call. *)
Inductive Event : Type :=
  | Printed (text : string)
  | Asked (text : string).

(** The terminal and the clock: the lines still to be typed, what has been
    written so far (oldest first) and how many times the clock has been
    read. *)
Record World : Type := mkWorld
  { stdin : list string;
    stdout : list Event;
    clock_reads : nat }.

Record Store : Type := mkStore
  { self : CoffeeMachine; world : World }.

(** ** The monad of methods *)

(** The exceptions the program can meet: [input] at the end of the input
    raises [EOFError], [int] on a malformed text raises [ValueError]. *)
Inductive Exn : Type := EOFError | ValueError.

Inductive Res (A : Type) : Type :=
  | Ret (a : A)
  | Raise (e : Exn).
Arguments Ret {A} a.
Arguments Raise {A} e.

(** A method takes the store and gives a result or an exception, with the
    store as it stands at that point: Python does not roll back what was
    done before an exception. *)
Definition M (A : Type) : Type := Store -> Res A * Store.

#[global] Instance M_ret : MRet M := fun A a s => (Ret a, s).

#[global] Instance M_bind : MBind M := fun A B k c s =>
  match c s with
  | (Ret a, s') => k a s'
  | (Raise e, s') => (Raise e, s')
  end.

Definition raise {A : Type} (e : Exn) : M A := fun s => (Raise e, s).

(** [try: c except e: h]: only the named exception is handled. *)
Definition try_except {A : Type} (c : M A) (e : Exn) (h : M A) : M A := fun s =>
  match c s with
  | (Ret a, s') => (Ret a, s')
  | (Raise e', s') =>
      match e, e' with
      | EOFError, EOFError | ValueError, ValueError => h s'
      | _, _ => (Raise e', s')
      end
  end.

(** Reading and writing the object. *)
Definition get_self : M CoffeeMachine := fun s => (Ret (self s), s).

Definition set_resources (r : Resources) : M unit := fun s =>
  (Ret tt,
   mkStore (mkCoffeeMachine r (menu (self s)) (money_collected (self s))
                            (orders (self s)))
           (world s)).

Definition set_money_collected (v : Z) : M unit := fun s =>
  (Ret tt,
   mkStore (mkCoffeeMachine (resources (self s)) (menu (self s)) v
                            (orders (self s)))
           (world s)).

Definition set_orders (l : list Order.t) : M unit := fun s =>
  (Ret tt,
   mkStore (mkCoffeeMachine (resources (self s)) (menu (self s))
                            (money_collected (self s)) l)
           (world s)).

(** [print(text)]. *)
Definition print (text : string) : M unit := fun s =>
  (Ret tt,
   mkStore (self s)
           (mkWorld (stdin (world s)) (stdout (world s) ++ [Printed text])
                    (clock_reads (world s)))).

(** [input(prompt)]: the prompt is written, then one line is read; with no
    line left Python raises [EOFError]. *)
Definition input (prompt : string) : M string := fun s =>
  let out := stdout (world s) ++ [Asked prompt] in
  match stdin (world s) with
  | [] =>
      (Raise EOFError,
       mkStore (self s) (mkWorld [] out (clock_reads (world s))))
  | line :: rest =>
      (Ret line,
       mkStore (self s) (mkWorld rest out (clock_reads (world s))))
  end.

(** The number of lines still to be typed (used only to bound the loop). *)
Definition lines_left : M nat := fun s => (Ret (length (stdin (world s))), s).

(** ** Built-ins *)

Definition nl : string := String "010"%char "".

(** [str.lower()] on one character and on a text.  Texts are byte strings;
    the letters [A]..[Z] are mapped to [a]..[z] and every other byte is kept,
    which is what Python does on ASCII text.  (The general properties below
    only speak of [lower line] as a whole, so they do not depend on this
    choice; the scenarios use ASCII lines.) *)
Definition lower_ascii (c : ascii) : ascii :=
  let n := N_of_ascii c in
  if ((65 <=? n) && (n <=? 90))%N then ascii_of_N (n + 32) else c.

Fixpoint lower (s : string) : string :=
  match s with
  | EmptyString => EmptyString
  | String c s' => String (lower_ascii c) (lower s')
  end.

(** [str(n)] as used by the f-strings. *)
Definition str_of_Z (n : Z) : string := pretty n.

(** [int(text)] on ASCII text, [None] standing for [ValueError]: blanks
    (space, tab, line feed, vertical tab, form feed, carriage return) are
    stripped at both ends, one sign may come first, and the rest is decimal
    digits, with single underscores allowed between two digits.  (Digits
    outside ASCII and the interpreter's configurable cap on the number of
    digits are not modelled; the properties below are proved for every
    reading of [int], see [Section Machine].) *)
Definition is_space (c : ascii) : bool :=
  let n := N_of_ascii c in
  (((9 <=? n) && (n <=? 13)) || (n =? 32))%N.

Definition is_digit (c : ascii) : bool :=
  let n := N_of_ascii c in ((48 <=? n) && (n <=? 57))%N.

Definition digit_value (c : ascii) : Z := Z.of_N (N_of_ascii c) - 48.

Fixpoint lstrip (s : string) : string :=
  match s with
  | String c s' => if is_space c then lstrip s' else s
  | EmptyString => EmptyString
  end.

Definition strip (s : string) : string :=
  String.rev (lstrip (String.rev (lstrip s))).

(** [after_digit] tells whether the previous character was a digit: an
    underscore is accepted only then, and the text must not end on one. *)
Fixpoint digits_value (acc : Z) (after_digit : bool) (s : string) : option Z :=
  match s with
  | EmptyString => if after_digit then Some acc else None
  | String c s' =>
      if is_digit c then digits_value (10 * acc + digit_value c) true s'
      else if Ascii.eqb c "_" then
        (if after_digit then digits_value acc false s' else None)
      else None
  end.

Definition py_int (text : string) : option Z :=
  match strip text with
  | String "-" s' => Z.opp <$> digits_value 0 false s'
  | String "+" s' => digits_value 0 false s'
  | s' => digits_value 0 false s'
  end.

(** Python's [l[start:]]: a negative [start] counts from the end, and an
    index outside the list is clamped to it. *)
Definition slice_from {A : Type} (start : Z) (l : list A) : list A :=
  let len := Z.of_nat (length l) in
  let lo := if start <? 0 then Z.max (start + len) 0 else Z.min start len in
  drop (Z.to_nat lo) l.

(** [for x in l: body x]. *)
Fixpoint for_each {A : Type} (l : list A) (body : A -> M unit) : M unit :=
  match l with
  | [] => mret tt
  | x :: l' => body x;; for_each l' body
  end.

(** The three prompts of [run]. *)
Definition menu_prompt : string :=
  "Enter drink name (espresso/latte/cappuccino), 'report', 'history', or 'exit': ".
Definition password_prompt : string := "🔐 Enter admin password: ".
Definition amount_prompt : string := "Enter amount: Rs ".

(** How a pass through the body of [while True] ends: by reaching its end,
    by [continue] or by [break]. *)
Inductive Ctl : Type := Normal | Continue | Break.

Section Machine.

(** The two built-ins whose results the program cannot predict are taken
    as given: [clock k] is the text that the [k]-th call (from 0) of
    [time.strftime("%d-%m-%Y %H:%M:%S")] returns, and [int_of text] is the
    value of [int(text)], [None] when it raises [ValueError]. *)
Variable clock : nat -> string.
Variable int_of : string -> option Z.

Definition strftime : M string := fun s =>
  (Ret (clock (clock_reads (world s))),
   mkStore (self s)
           (mkWorld (stdin (world s)) (stdout (world s))
                    (S (clock_reads (world s))))).

Definition int (text : string) : M Z :=
  match int_of text with
  | Some n => mret n
  | None => raise ValueError
  end.

(** ** The classes *)

(** [Order.__init__]. *)
Definition Order__init__ (drink_name : string) (amount_paid : Z) : M Order.t :=
  ts ← strftime;
  mret (Order.Build drink_name amount_paid ts).

(** [CoffeeMachine.__init__]. *)
Definition CoffeeMachine__init__ : CoffeeMachine :=
  {| resources := {| water := 1000; milk := 800; coffee := 300 |};
     menu :=
       list_to_map
         [ ("espresso", Drink.Build "Espresso" 50 0 18 100);
           ("latte", Drink.Build "Latte" 200 150 24 200);
           ("cappuccino", Drink.Build "Cappuccino" 250 100 24 250) ];
     money_collected := 0;
     orders := [] |}.

Definition print_report : M unit :=
  print (nl +:+ "📊 GCU Coffee Machine Report:");;
  m ← get_self;
  print ("Water: " +:+ str_of_Z (water (resources m)) +:+ "ml");;
  m ← get_self;
  print ("Milk: " +:+ str_of_Z (milk (resources m)) +:+ "ml");;
  m ← get_self;
  print ("Coffee: " +:+ str_of_Z (coffee (resources m)) +:+ "g");;
  m ← get_self;
  print ("Total Sales: Rs " +:+ str_of_Z (money_collected m));;
  m ← get_self;
  print ("🧾 Total Orders:" +:+ " " +:+
         str_of_Z (Z.of_nat (length (orders m))));;
  print "".

Definition check_resources (drink : Drink.t) : M bool :=
  m ← get_self;
  if water (resources m) <? Drink.water drink then
    print "❌ Not enough water.";; mret false
  else
    m ← get_self;
    if milk (resources m) <? Drink.milk drink then
      print "❌ Not enough milk.";; mret false
    else
      m ← get_self;
      if coffee (resources m) <? Drink.coffee drink then
        print "❌ Not enough coffee.";; mret false
      else mret true.

Definition make_drink (drink : Drink.t) : M unit :=
  m ← get_self;
  set_resources {| water := water (resources m) - Drink.water drink;
                   milk := milk (resources m);
                   coffee := coffee (resources m) |};;
  m ← get_self;
  set_resources {| water := water (resources m);
                   milk := milk (resources m) - Drink.milk drink;
                   coffee := coffee (resources m) |};;
  m ← get_self;
  set_resources {| water := water (resources m);
                   milk := milk (resources m);
                   coffee := coffee (resources m) - Drink.coffee drink |};;
  m ← get_self;
  set_money_collected (money_collected m + Drink.cost drink);;
  o ← Order__init__ (Drink.name drink) (Drink.cost drink);
  m ← get_self;
  set_orders (orders m ++ [o]);;
  print ("✅ Here's your " +:+ Drink.name drink +:+ "! Enjoy ☕" +:+ nl).

(** The line an order takes in the history. *)
Definition history_line (order : Order.t) : string :=
  Order.timestamp order +:+ " - " +:+ Order.drink_name order +:+
  " - Rs " +:+ str_of_Z (Order.amount_paid order).

Definition show_order_history : M unit :=
  m ← get_self;
  match orders m with
  | [] => print ("📭 No orders placed yet." +:+ nl)
  | _ :: _ =>
      print "📜 Order History (Last 5 orders):";;
      m ← get_self;
      for_each (slice_from (-5) (orders m))
               (fun order => print (history_line order));;
      print ""
  end.

(** ** The interactive loop of [run] *)

(** The branch [elif choice == 'report']. *)
Definition run_report : M unit :=
  password ← input password_prompt;
  if String.eqb password "gcuadmin" then print_report
  else print ("❌ Access denied." +:+ nl).

(** The branch [elif choice in self.menu], from [drink = self.menu[choice]]
    on. *)
Definition run_order (drink : Drink.t) : M Ctl :=
  ok ← check_resources drink;
  if ok : bool then
    print ("💰 Please pay Rs " +:+ str_of_Z (Drink.cost drink));;
    r ← try_except
          (text ← input amount_prompt;
           amount ← int text;
           mret (inl amount))
          ValueError
          (print ("❌ Invalid input. Please enter a number." +:+ nl);;
           mret (inr Continue));
    match r with
    | inr ctl => mret ctl
    | inl amount =>
        if Drink.cost drink <=? amount then
          let change := amount - Drink.cost drink in
          (if 0 <? change then
             print ("💸 Here is your change: Rs " +:+ str_of_Z change)
           else mret tt);;
          make_drink drink;;
          mret Normal
        else
          print ("❌ Not enough money. Money refunded." +:+ nl);;
          mret Normal
    end
  else mret Normal.

(** One pass through the body of [while True]. *)
Definition run_body : M Ctl :=
  line ← input menu_prompt;
  let choice := lower line in
  if String.eqb choice "exit" then
    print "👋 Thank you for visiting GCU Coffee Machine!";;
    mret Break
  else if String.eqb choice "report" then
    run_report;; mret Normal
  else if String.eqb choice "history" then
    show_order_history;; mret Normal
  else
    m ← get_self;
    match menu m !! choice with
    | Some drink => run_order drink
    | None =>
        print ("⚠️ Invalid option. Try again." +:+ nl);;
        mret Normal
    end.

(** [while True: body], with a bound on the number of passes; [None] says
    that the bound was reached before the loop ended. *)
Fixpoint run_loop (fuel : nat) : M (option unit) :=
  match fuel with
  | O => mret None
  | S fuel' =>
      ctl ← run_body;
      match ctl with
      | Break => mret (Some tt)
      | Normal | Continue => run_loop fuel'
      end
  end.

(** [CoffeeMachine.run].  Every pass reads at least one line, so one pass
    more than there are lines is always enough (see [run_returns]). *)
Definition run : M (option unit) :=
  print ("👋 Welcome to GCU Coffee Machine!" +:+ nl);;
  n ← lines_left;
  run_loop (S n).

(** ** Notions used by the properties *)

(** The gate of the specification, in its words: every requirement is
    covered by the stock. *)
Definition canFulfill (r : Resources) (d : Drink.t) : Prop :=
  Drink.water d <= water r /\ Drink.milk d <= milk r /\
  Drink.coffee d <= coffee r.

(** No quantity of the stock is below zero. *)
Definition stock_nonnegative (r : Resources) : Prop :=
  0 <= water r /\ 0 <= milk r /\ 0 <= coffee r.

(** The stock once the three requirements of a drink are taken from it. *)
Definition deducted (r : Resources) (d : Drink.t) : Resources :=
  {| water := water r - Drink.water d;
     milk := milk r - Drink.milk d;
     coffee := coffee r - Drink.coffee d |}.

(** The machine once a sale of [d], stamped [ts], is booked. *)
Definition committed (m : CoffeeMachine) (d : Drink.t) (ts : string)
  : CoffeeMachine :=
  {| resources := deducted (resources m) d;
     menu := menu m;
     money_collected := money_collected m + Drink.cost d;
     orders := orders m ++ [Order.Build (Drink.name d) (Drink.cost d) ts] |}.

(** The sum of what the ledger says was paid. *)
Definition ledger_total (l : list Order.t) : Z :=
  foldr (fun o acc => Order.amount_paid o + acc) 0 l.

(** What a computation writes to the terminal when started in [s]. *)
Definition emitted {A : Type} (c : M A) (s : Store) : list Event :=
  drop (length (stdout (world s))) (stdout (world (c s).2)).

(** The store a computation leaves when started in [s]. *)
Definition after {A : Type} (c : M A) (s : Store) : Store := (c s).2.

(** The world once a prompt was shown and one line was taken. *)
Definition prompted (prompt : string) (rest : list string) (w : World)
  : World :=
  mkWorld rest (stdout w ++ [Asked prompt]) (clock_reads w).

(** The world once some events were written. *)
Definition wrote (events : list Event) (w : World) : World :=
  mkWorld (stdin w) (stdout w ++ events) (clock_reads w).

(** The world when the price has been announced. *)
Definition asked_to_pay (d : Drink.t) (w : World) : World :=
  wrote [Printed ("💰 Please pay Rs " +:+ str_of_Z (Drink.cost d))] w.

(** What is written about the change: a line when some is due, nothing when
    the amount is exact. *)
Definition change_lines (change : Z) : list Event :=
  if 0 <? change
  then [Printed ("💸 Here is your change: Rs " +:+ str_of_Z change)]
  else [].

Definition served_line (d : Drink.t) : Event :=
  Printed ("✅ Here's your " +:+ Drink.name d +:+ "! Enjoy ☕" +:+ nl).

(** What the report shows for a machine. *)
Definition report_lines (m : CoffeeMachine) : list Event :=
  emitted print_report (mkStore m (mkWorld [] [] 0)).

(** The three resources in the order the check looks at them, what the
    stock holds and a drink needs of each, and the complaint for each. *)
Inductive Resource : Type := Water | Milk | Coffee.

Definition rank (res : Resource) : nat :=
  match res with Water => 0 | Milk => 1 | Coffee => 2 end.

Definition stock (res : Resource) (r : Resources) : Z :=
  match res with Water => water r | Milk => milk r | Coffee => coffee r end.

Definition need (res : Resource) (d : Drink.t) : Z :=
  match res with
  | Water => Drink.water d
  | Milk => Drink.milk d
  | Coffee => Drink.coffee d
  end.

Definition diagnostic (res : Resource) : string :=
  match res with
  | Water => "❌ Not enough water."
  | Milk => "❌ Not enough milk."
  | Coffee => "❌ Not enough coffee."
  end.

(** [recent n], in the words of the specification: the last [n] records,
    oldest first, and all of them when there are fewer. *)
Definition recent {A : Type} (n : nat) (l : list A) : list A :=
  drop (length l - n) l.

(** What the history screen looks like when it lists [l]. *)
Definition history_screen (l : list Order.t) : list Event :=
  Printed "📜 Order History (Last 5 orders):" ::
  map (fun order => Printed (history_line order)) l ++ [Printed ""].

(** The operations a user of the object has: its four methods, one pass of
    the interactive loop, and the whole of [run]. *)
Inductive Call : Type :=
  | call_print_report
  | call_check_resources (drink : Drink.t)
  | call_make_drink (drink : Drink.t)
  | call_show_order_history
  | call_run_body
  | call_run.

Definition call (c : Call) : M unit :=
  match c with
  | call_print_report => print_report
  | call_check_resources drink => check_resources drink;; mret tt
  | call_make_drink drink => make_drink drink
  | call_show_order_history => show_order_history
  | call_run_body => run_body;; mret tt
  | call_run => run;; mret tt
  end.

(** The machines that a sequence of operations can produce from a fresh
    one, whatever is typed and whatever the terminal and the clock were
    before each operation; an operation that ends in an exception counts
    with the machine it leaves. *)
Inductive reachable : CoffeeMachine -> Prop :=
  | reachable_init : reachable CoffeeMachine__init__
  | reachable_call (m : CoffeeMachine) (w : World) (c : Call) :
      reachable m -> reachable (self (after (call c) (mkStore m w))).

(** The ways the loop turns a purchase down, read off the store a pass
    starts in: the line typed names no drink of the menu; it names one that
    the stock does not cover; it names one that the stock covers and the
    amount typed next is below its cost; or what is typed next is not a
    number. *)
Inductive Rejection : Type :=
  | UnknownDrink
  | InsufficientResource
  | InsufficientPayment
  | InvalidInputFormat.

Definition rejected (why : Rejection) (s : Store) : Prop :=
  match stdin (world s) with
  | [] => False
  | line :: rest =>
      match why with
      | UnknownDrink => menu (self s) !! lower line = None
      | InsufficientResource =>
          exists d, menu (self s) !! lower line = Some d /\
                    ~ canFulfill (resources (self s)) d
      | InsufficientPayment =>
          exists d text rest' amount,
            menu (self s) !! lower line = Some d /\
            canFulfill (resources (self s)) d /\
            rest = text :: rest' /\
            int_of text = Some amount /\
            amount < Drink.cost d
      | InvalidInputFormat =>
          exists d text rest',
            menu (self s) !! lower line = Some d /\
            canFulfill (resources (self s)) d /\
            rest = text :: rest' /\
            int_of text = None
      end
  end.

(** A branch of [run] either leaves the machine as it was or books one sale,
    it never gives lines back, and the only exception that leaves it is the
    one for the end of the input. *)
Definition sale_or_nothing {A : Type} (s : Store) (out : Res A * Store)
  : Prop :=
  out.1 <> Raise ValueError /\
  (length (stdin (world out.2)) <= length (stdin (world s)))%nat /\
  (self out.2 = self s \/
   exists d, canFulfill (resources (self s)) d /\
     self out.2 = committed (self s) d (clock (clock_reads (world s)))).

(** [sales m m']: [m'] is [m] after some sales were booked, one after the
    other. *)
Inductive sales : CoffeeMachine -> CoffeeMachine -> Prop :=
  | sales_none (m : CoffeeMachine) : sales m m
  | sales_more (m m' : CoffeeMachine) (d : Drink.t) (ts : string) :
      sales m m' -> sales m (committed m' d ts).

(** A pass that starts in [s] is a purchase of [d] with [text] typed as the
    amount: the first line, once lowered, is none of the three command words
    and is the key of [d] in the menu, and [text] is the line after it. *)
Definition purchase (s : Store) (d : Drink.t) (text : string)
    (rest : list string) : Prop :=
  exists line,
    stdin (world s) = line :: text :: rest /\
    lower line <> "exit" /\ lower line <> "report" /\
    lower line <> "history" /\
    menu (self s) !! lower line = Some d.

(** A fresh machine in front of a terminal where [lines] will be typed. *)
Definition fresh (lines : list string) : Store :=
  mkStore CoffeeMachine__init__ (mkWorld lines [] 0).

(** A clock that is stopped, for the examples. *)
Definition stopped_clock : nat -> string := fun _ => "04-11-2026 09:00:00".

(** The three drinks of the menu, and a drink for which the fresh machine
    has enough water but neither enough milk nor enough coffee, for the
    examples. *)
Definition espresso : Drink.t := Drink.Build "Espresso" 50 0 18 100.
Definition latte : Drink.t := Drink.Build "Latte" 200 150 24 200.
Definition cappuccino : Drink.t := Drink.Build "Cappuccino" 250 100 24 250.
Definition milk_bath : Drink.t := Drink.Build "Milk bath" 10 5000 5000 1.

(** A machine whose water is down to 10, and one that has sold three
    drinks, in front of a terminal where [lines] will be typed. *)
Definition drained (lines : list string) : Store :=
  mkStore (mkCoffeeMachine (mkResources 10 800 300)
                           (menu CoffeeMachine__init__) 0 [])
          (mkWorld lines [] 0).

Definition three_orders (lines : list string) : Store :=
  mkStore
    (committed
       (committed (committed CoffeeMachine__init__ espresso (stopped_clock 0%nat))
                  latte (stopped_clock 1%nat))
       espresso (stopped_clock 2%nat))
    (mkWorld lines [] 3).

(** The four ways a pass of the loop can go, with what each does to the
    machine, to the lines still to be typed and to the clock: the input runs
    out at one of the prompts; [exit] is typed; the pass reads one or two
    lines and leaves the machine alone; or a drink of the menu that the
    stock covers is paid for and booked. *)
Inductive pass (s : Store) : Res Ctl * Store -> Prop :=
  | pass_crash (s' : Store) :
      self s' = self s ->
      stdin (world s') = [] ->
      clock_reads (world s') = clock_reads (world s) ->
      pass s (Raise EOFError, s')
  | pass_quit (line : string) (s' : Store) :
      stdin (world s) = line :: stdin (world s') ->
      lower line = "exit" ->
      self s' = self s ->
      clock_reads (world s') = clock_reads (world s) ->
      pass s (Ret Break, s')
  | pass_idle (ctl : Ctl) (consumed : list string) (s' : Store) :
      ctl <> Break ->
      consumed <> [] ->
      stdin (world s) = consumed ++ stdin (world s') ->
      self s' = self s ->
      clock_reads (world s') = clock_reads (world s) ->
      pass s (Ret ctl, s')
  | pass_sale (line text : string) (d : Drink.t) (s' : Store) :
      stdin (world s) = line :: text :: stdin (world s') ->
      menu (self s) !! lower line = Some d ->
      canFulfill (resources (self s)) d ->
      self s' = committed (self s) d (clock (clock_reads (world s))) ->
      clock_reads (world s') = S (clock_reads (world s)) ->
      pass s (Ret Normal, s').

(** The script run as a program: [machine = CoffeeMachine()] and then
    [machine.run()], in front of a terminal where [lines] will be typed. *)
Definition main (lines : list string) : Res (option unit) * Store :=
  run (fresh lines).

(** The name and the price under which each drink of the menu is booked. *)
Definition catalog : list (string * Z) :=
  [("Espresso", 100); ("Latte", 200); ("Cappuccino", 250)].

(** ** Properties *)

Arguments str_of_Z : simpl never.

Lemma make_drink_spec (d : Drink.t) (s : Store) :
  make_drink d s =
    (Ret tt,
     mkStore (committed (self s) d (clock (clock_reads (world s))))
             (mkWorld (stdin (world s))
                      (stdout (world s) ++ [served_line d])
                      (S (clock_reads (world s))))).
Proof. reflexivity. Qed.

Ltac monad_simpl :=
  unfold mbind, M_bind, mret, M_ret, raise, try_except; simpl.

Lemma emitted_wrote {A : Type} (c : M A) (s : Store) (events : list Event) :
  world (after c s) = wrote events (world s) -> emitted c s = events.
Proof.
  unfold emitted, after. intros ->. simpl. apply drop_app_length.
Qed.

(** *** [check_resources] *)

Lemma check_resources_short (res : Resource) (d : Drink.t) (s : Store) :
  stock res (resources (self s)) < need res d ->
  (forall res', (rank res' < rank res)%nat ->
                need res' d <= stock res' (resources (self s))) ->
  check_resources d s =
    (Ret false, mkStore (self s) (wrote [Printed (diagnostic res)] (world s))).
Proof.
  intros Hshort Hbefore.
  pose proof (Hbefore Water) as Hw. pose proof (Hbefore Milk) as Hm.
  unfold check_resources. monad_simpl.
  destruct res; simpl in *.
  - destruct (Z.ltb_spec (water (resources (self s))) (Drink.water d));
      [reflexivity | lia].
  - destruct (Z.ltb_spec (water (resources (self s))) (Drink.water d));
      [lia |].
    destruct (Z.ltb_spec (milk (resources (self s))) (Drink.milk d));
      [reflexivity | lia].
  - destruct (Z.ltb_spec (water (resources (self s))) (Drink.water d));
      [lia |].
    destruct (Z.ltb_spec (milk (resources (self s))) (Drink.milk d));
      [lia |].
    destruct (Z.ltb_spec (coffee (resources (self s))) (Drink.coffee d));
      [reflexivity | lia].
Qed.

Lemma check_resources_ok (d : Drink.t) (s : Store) :
  canFulfill (resources (self s)) d -> check_resources d s = (Ret true, s).
Proof.
  intros (Hw & Hm & Hc). unfold check_resources. monad_simpl.
  destruct (Z.ltb_spec (water (resources (self s))) (Drink.water d)); [lia |].
  destruct (Z.ltb_spec (milk (resources (self s))) (Drink.milk d)); [lia |].
  destruct (Z.ltb_spec (coffee (resources (self s))) (Drink.coffee d));
    [lia | reflexivity].
Qed.

(** When the gate is closed, some resource is the first one short. *)
Lemma first_shortage (r : Resources) (d : Drink.t) :
  ~ canFulfill r d ->
  exists res, stock res r < need res d /\
    forall res', (rank res' < rank res)%nat -> need res' d <= stock res' r.
Proof.
  unfold canFulfill. intros Hno.
  destruct (Z.lt_ge_cases (water r) (Drink.water d)) as [Hw | Hw].
  { exists Water. split; [exact Hw |]. intros []; simpl; lia. }
  destruct (Z.lt_ge_cases (milk r) (Drink.milk d)) as [Hm | Hm].
  { exists Milk. split; [exact Hm |]. intros []; simpl; lia. }
  destruct (Z.lt_ge_cases (coffee r) (Drink.coffee d)) as [Hc | Hc].
  { exists Coffee. split; [exact Hc |]. intros []; simpl; lia. }
  exfalso. apply Hno. lia.
Qed.

Lemma canFulfill_dec (r : Resources) (d : Drink.t) :
  canFulfill r d \/ ~ canFulfill r d.
Proof. unfold canFulfill. lia. Qed.

Lemma check_resources_closed (d : Drink.t) (s : Store) :
  ~ canFulfill (resources (self s)) d ->
  exists res,
    check_resources d s =
      (Ret false, mkStore (self s) (wrote [Printed (diagnostic res)] (world s))).
Proof.
  intros Hno. destruct (first_shortage _ _ Hno) as (res & Hshort & Hbefore).
  exists res. by apply check_resources_short.
Qed.

(** *** [print_report] and [show_order_history] *)

Lemma print_report_spec (s : Store) :
  print_report s =
    (Ret tt, mkStore (self s) (wrote (report_lines (self s)) (world s))).
Proof.
  unfold report_lines, emitted, wrote, print_report. monad_simpl.
  unfold print. simpl. rewrite <- !app_assoc. reflexivity.
Qed.

Lemma for_each_print {A : Type} (f : A -> string) (l : list A) (s : Store) :
  for_each l (fun x => print (f x)) s =
    (Ret tt,
     mkStore (self s) (wrote (map (fun x => Printed (f x)) l) (world s))).
Proof.
  revert s. induction l as [| x l IH]; intros s; simpl.
  - unfold wrote. monad_simpl. rewrite app_nil_r. by destruct s as [m []].
  - monad_simpl. rewrite IH. unfold wrote. simpl.
    by rewrite <- app_assoc.
Qed.

Lemma show_order_history_empty (s : Store) :
  orders (self s) = [] ->
  show_order_history s =
    (Ret tt,
     mkStore (self s)
             (wrote [Printed ("📭 No orders placed yet." +:+ nl)] (world s))).
Proof.
  intros Hnone. unfold show_order_history. monad_simpl. by rewrite Hnone.
Qed.

Lemma show_order_history_some (s : Store) :
  orders (self s) <> [] ->
  show_order_history s =
    (Ret tt,
     mkStore (self s)
             (wrote (history_screen (slice_from (-5) (orders (self s))))
                    (world s))).
Proof.
  intros Hsome. unfold show_order_history. monad_simpl.
  destruct (orders (self s)) as [| o l] eqn:Horders; [done |].
  monad_simpl. rewrite Horders, for_each_print. simpl.
  unfold wrote, history_screen, print. simpl.
  rewrite <- !app_assoc. reflexivity.
Qed.

(** *** The branches of [run] *)

Lemma run_report_eof (s : Store) :
  stdin (world s) = [] ->
  run_report s =
    (Raise EOFError,
     mkStore (self s) (prompted password_prompt [] (world s))).
Proof.
  intros Hin. unfold run_report, input. monad_simpl. by rewrite Hin.
Qed.

Lemma run_report_granted (s : Store) (rest : list string) :
  stdin (world s) = "gcuadmin" :: rest ->
  run_report s =
    (Ret tt,
     mkStore (self s)
             (wrote (report_lines (self s))
                    (prompted password_prompt rest (world s)))).
Proof.
  intros Hin. unfold run_report, input. monad_simpl. rewrite Hin. simpl.
  by rewrite print_report_spec.
Qed.

Lemma run_report_denied (s : Store) (password : string) (rest : list string) :
  stdin (world s) = password :: rest ->
  password <> "gcuadmin" ->
  run_report s =
    (Ret tt,
     mkStore (self s)
             (wrote [Printed ("❌ Access denied." +:+ nl)]
                    (prompted password_prompt rest (world s)))).
Proof.
  intros Hin Hne. unfold run_report, input. monad_simpl. rewrite Hin.
  destruct (String.eqb_spec password "gcuadmin") as [Heq | _]; [done |].
  reflexivity.
Qed.

Lemma run_order_short (d : Drink.t) (s : Store) :
  ~ canFulfill (resources (self s)) d ->
  exists res,
    run_order d s =
      (Ret Normal,
       mkStore (self s) (wrote [Printed (diagnostic res)] (world s))).
Proof.
  intros Hno. destruct (check_resources_closed d s Hno) as [res Hcheck].
  exists res. unfold run_order. monad_simpl. by rewrite Hcheck.
Qed.

Lemma run_order_eof (d : Drink.t) (s : Store) :
  canFulfill (resources (self s)) d ->
  stdin (world s) = [] ->
  run_order d s =
    (Raise EOFError,
     mkStore (self s)
             (prompted amount_prompt [] (asked_to_pay d (world s)))).
Proof.
  intros Hcan Hin. unfold run_order. monad_simpl.
  rewrite (check_resources_ok d s Hcan). unfold input. simpl.
  by rewrite Hin.
Qed.

Lemma run_order_invalid (d : Drink.t) (s : Store) (text : string)
    (rest : list string) :
  canFulfill (resources (self s)) d ->
  stdin (world s) = text :: rest ->
  int_of text = None ->
  run_order d s =
    (Ret Continue,
     mkStore (self s)
             (wrote [Printed ("❌ Invalid input. Please enter a number." +:+ nl)]
                    (prompted amount_prompt rest (asked_to_pay d (world s))))).
Proof.
  intros Hcan Hin Hint. unfold run_order. monad_simpl.
  rewrite (check_resources_ok d s Hcan). unfold input, int. simpl.
  rewrite Hin. simpl. rewrite Hint. reflexivity.
Qed.

Lemma run_order_underpaid (d : Drink.t) (s : Store) (text : string)
    (rest : list string) (amount : Z) :
  canFulfill (resources (self s)) d ->
  stdin (world s) = text :: rest ->
  int_of text = Some amount ->
  amount < Drink.cost d ->
  run_order d s =
    (Ret Normal,
     mkStore (self s)
             (wrote [Printed ("❌ Not enough money. Money refunded." +:+ nl)]
                    (prompted amount_prompt rest (asked_to_pay d (world s))))).
Proof.
  intros Hcan Hin Hint Hlow. unfold run_order. monad_simpl.
  rewrite (check_resources_ok d s Hcan). unfold input, int. simpl.
  rewrite Hin. simpl. rewrite Hint. simpl.
  destruct (Z.leb_spec (Drink.cost d) amount); [lia | reflexivity].
Qed.

Lemma run_order_paid (d : Drink.t) (s : Store) (text : string)
    (rest : list string) (amount : Z) :
  canFulfill (resources (self s)) d ->
  stdin (world s) = text :: rest ->
  int_of text = Some amount ->
  Drink.cost d <= amount ->
  run_order d s =
    (Ret Normal,
     mkStore (committed (self s) d (clock (clock_reads (world s))))
             (mkWorld rest
                (stdout (world s) ++
                   [Printed ("💰 Please pay Rs " +:+ str_of_Z (Drink.cost d));
                    Asked amount_prompt] ++
                   change_lines (amount - Drink.cost d) ++ [served_line d])
                (S (clock_reads (world s))))).
Proof.
  intros Hcan Hin Hint Hpaid. unfold run_order. monad_simpl.
  rewrite (check_resources_ok d s Hcan). unfold input, int. simpl.
  rewrite Hin. simpl. rewrite Hint. simpl.
  destruct (Z.leb_spec (Drink.cost d) amount); [| lia].
  unfold change_lines.
  destruct (0 <? amount - Drink.cost d); simpl;
    rewrite <- !app_assoc; reflexivity.
Qed.

(** *** One pass of the loop *)

Lemma run_body_eof (s : Store) :
  stdin (world s) = [] ->
  run_body s =
    (Raise EOFError, mkStore (self s) (prompted menu_prompt [] (world s))).
Proof.
  intros Hin. unfold run_body, input. monad_simpl. by rewrite Hin.
Qed.

Lemma run_body_exit (s : Store) (line : string) (rest : list string) :
  stdin (world s) = line :: rest ->
  lower line = "exit" ->
  run_body s =
    (Ret Break,
     mkStore (self s)
             (wrote [Printed "👋 Thank you for visiting GCU Coffee Machine!"]
                    (prompted menu_prompt rest (world s)))).
Proof.
  intros Hin Hexit. unfold run_body, input. monad_simpl.
  rewrite Hin. simpl. rewrite Hexit. reflexivity.
Qed.

Lemma run_body_report (s : Store) (line : string) (rest : list string) :
  stdin (world s) = line :: rest ->
  lower line = "report" ->
  run_body s =
    (run_report;; mret Normal)
      (mkStore (self s) (prompted menu_prompt rest (world s))).
Proof.
  intros Hin Hreport. unfold run_body, input. monad_simpl.
  rewrite Hin. simpl. rewrite Hreport. reflexivity.
Qed.

Lemma run_body_history (s : Store) (line : string) (rest : list string) :
  stdin (world s) = line :: rest ->
  lower line = "history" ->
  run_body s =
    (show_order_history;; mret Normal)
      (mkStore (self s) (prompted menu_prompt rest (world s))).
Proof.
  intros Hin Hhistory. unfold run_body, input. monad_simpl.
  rewrite Hin. simpl. rewrite Hhistory. reflexivity.
Qed.

Lemma run_body_menu (s : Store) (line : string) (rest : list string) :
  stdin (world s) = line :: rest ->
  lower line <> "exit" -> lower line <> "report" ->
  lower line <> "history" ->
  run_body s =
    let s1 := mkStore (self s) (prompted menu_prompt rest (world s)) in
    match menu (self s) !! lower line with
    | Some drink => run_order drink s1
    | None =>
        (Ret Normal,
         mkStore (self s)
                 (wrote [Printed ("⚠️ Invalid option. Try again." +:+ nl)]
                        (world s1)))
    end.
Proof.
  intros Hin Hexit Hreport Hhistory. unfold run_body, input. monad_simpl.
  rewrite Hin. simpl.
  destruct (String.eqb_spec (lower line) "exit"); [done |].
  destruct (String.eqb_spec (lower line) "report"); [done |].
  destruct (String.eqb_spec (lower line) "history"); [done |].
  unfold get_self. simpl.
  destruct (menu (self s) !! lower line); reflexivity.
Qed.

(** *** What a pass can do to the machine and to the input *)

Ltac use_stdin :=
  unfold prompted, wrote, asked_to_pay; simpl;
  try match goal with H : stdin (world _) = _ |- _ => rewrite H end;
  simpl; lia.

Ltac nothing_done :=
  unfold sale_or_nothing; simpl;
  split; [discriminate | split; [use_stdin | auto]].

Lemma run_report_effect (s : Store) : sale_or_nothing s (run_report s).
Proof.
  destruct (stdin (world s)) as [| password rest] eqn:Hin.
  - rewrite (run_report_eof s Hin). nothing_done.
  - destruct (decide (password = "gcuadmin")) as [-> | Hne].
    + rewrite (run_report_granted s rest Hin). nothing_done.
    + rewrite (run_report_denied s password rest Hin Hne). nothing_done.
Qed.

Lemma show_order_history_effect (s : Store) :
  sale_or_nothing s (show_order_history s).
Proof.
  destruct (decide (orders (self s) = [])) as [Hnone | Hsome].
  - rewrite (show_order_history_empty s Hnone). nothing_done.
  - rewrite (show_order_history_some s Hsome). nothing_done.
Qed.

Lemma run_order_effect (d : Drink.t) (s : Store) :
  sale_or_nothing s (run_order d s).
Proof.
  destruct (canFulfill_dec (resources (self s)) d) as [Hcan | Hno].
  2: { destruct (run_order_short d s Hno) as [res ->]. nothing_done. }
  destruct (stdin (world s)) as [| text rest] eqn:Hin.
  { rewrite (run_order_eof d s Hcan Hin). nothing_done. }
  destruct (int_of text) as [amount |] eqn:Hint.
  2: { rewrite (run_order_invalid d s text rest Hcan Hin Hint).
       nothing_done. }
  destruct (Z.lt_ge_cases amount (Drink.cost d)) as [Hlow | Hpaid].
  - rewrite (run_order_underpaid d s text rest amount Hcan Hin Hint Hlow).
    nothing_done.
  - rewrite (run_order_paid d s text rest amount Hcan Hin Hint Hpaid).
    unfold sale_or_nothing. simpl.
    split; [discriminate | split; [use_stdin | right; eauto]].
Qed.

Lemma after_then_ret {A B : Type} (c : M A) (b : B) (s : Store) :
  after (c;; mret b) s = after c s.
Proof.
  unfold after. monad_simpl. by destruct (c s) as [[a | e] s'].
Qed.

Lemma sale_or_nothing_then_ret {A B : Type} (c : M A) (b : B) (s : Store) :
  sale_or_nothing s (c s) -> sale_or_nothing s ((c;; mret b) s).
Proof.
  unfold sale_or_nothing. monad_simpl.
  destruct (c s) as [[a | e] s']; simpl; intros (Hexn & Hrest);
    (split; [congruence | exact Hrest]).
Qed.

Lemma sale_or_nothing_prompted {A : Type} (s : Store) (out : Res A * Store)
    (prompt : string) (line : string) (rest : list string) :
  stdin (world s) = line :: rest ->
  sale_or_nothing (mkStore (self s) (prompted prompt rest (world s))) out ->
  sale_or_nothing s out /\
  (length (stdin (world out.2)) < length (stdin (world s)))%nat.
Proof.
  unfold sale_or_nothing. simpl. intros Hin (Hexn & Hlen & Hself).
  rewrite Hin. simpl. repeat split; [exact Hexn | lia | exact Hself | lia].
Qed.

Lemma run_body_effect (s : Store) :
  sale_or_nothing s (run_body s) /\
  (forall ctl, (run_body s).1 = Ret ctl ->
     (length (stdin (world (run_body s).2)) <
      length (stdin (world s)))%nat).
Proof.
  destruct (stdin (world s)) as [| line rest] eqn:Hin.
  { rewrite (run_body_eof s Hin). simpl.
    split; [| discriminate]. unfold sale_or_nothing. simpl.
    split; [discriminate | split; [use_stdin | auto]]. }
  assert (Hbranch : sale_or_nothing
            (mkStore (self s) (prompted menu_prompt rest (world s)))
            (run_body s)).
  { destruct (decide (lower line = "exit")) as [Hexit | Hexit].
    { rewrite (run_body_exit s line rest Hin Hexit). nothing_done. }
    destruct (decide (lower line = "report")) as [Hreport | Hreport].
    { rewrite (run_body_report s line rest Hin Hreport).
      apply sale_or_nothing_then_ret, run_report_effect. }
    destruct (decide (lower line = "history")) as [Hhistory | Hhistory].
    { rewrite (run_body_history s line rest Hin Hhistory).
      apply sale_or_nothing_then_ret, show_order_history_effect. }
    rewrite (run_body_menu s line rest Hin Hexit Hreport Hhistory). simpl.
    destruct (menu (self s) !! lower line) as [d |].
    - apply run_order_effect.
    - nothing_done. }
  destruct (sale_or_nothing_prompted s _ menu_prompt line rest Hin Hbranch)
    as [Hsale Hless].
  rewrite Hin in Hless. split; [exact Hsale | intros _ _; exact Hless].
Qed.

Lemma sales_trans (m1 m2 m3 : CoffeeMachine) :
  sales m1 m2 -> sales m2 m3 -> sales m1 m3.
Proof.
  intros H12 H23. induction H23 as [| m2 m3 d ts _ IH]; [exact H12 |].
  apply sales_more. by apply IH.
Qed.

Lemma sale_or_nothing_sales {A : Type} (s : Store) (out : Res A * Store) :
  sale_or_nothing s out -> sales (self s) (self out.2).
Proof.
  intros (_ & _ & [-> | (d & _ & ->)]).
  - apply sales_none.
  - apply sales_more, sales_none.
Qed.

(** The loop books sales and does nothing else to the machine. *)
Lemma run_loop_sales (fuel : nat) (s : Store) :
  sales (self s) (self (after (run_loop fuel) s)).
Proof.
  revert s. induction fuel as [| fuel IH]; intros s.
  { apply sales_none. }
  unfold after. simpl. monad_simpl.
  pose proof (sale_or_nothing_sales _ _ (proj1 (run_body_effect s))) as Hbody.
  destruct (run_body s) as [[[| |] | e] s']; simpl in *; try exact Hbody.
  - eapply sales_trans; [exact Hbody | apply IH].
  - eapply sales_trans; [exact Hbody | apply IH].
Qed.

(** With more passes allowed than there are lines to read, the loop ends by
    itself: on [exit], or on the exception that the end of the input
    raises. *)
Lemma run_loop_returns (fuel : nat) (s : Store) :
  (length (stdin (world s)) < fuel)%nat ->
  (run_loop fuel s).1 = Ret (Some tt) \/
  (run_loop fuel s).1 = Raise EOFError.
Proof.
  revert s. induction fuel as [| fuel IH]; intros s Hfuel; [lia |].
  simpl. monad_simpl.
  destruct (run_body_effect s) as [(Hexn & _) Hless].
  destruct (run_body s) as [[ctl | e] s'] eqn:Hbody; simpl in *.
  - specialize (Hless ctl eq_refl).
    destruct ctl; [apply IH; lia | apply IH; lia | auto].
  - right. by destruct e.
Qed.

Lemma run_unfold (s : Store) :
  run s =
    run_loop (S (length (stdin (world s))))
      (mkStore (self s)
         (wrote [Printed ("👋 Welcome to GCU Coffee Machine!" +:+ nl)]
                (world s))).
Proof. reflexivity. Qed.

(** [run] always comes back: with [exit], or with the exception for the end
    of the input; the bound on the passes is never what stops it. *)
Lemma run_returns (s : Store) :
  (run s).1 = Ret (Some tt) \/ (run s).1 = Raise EOFError.
Proof. rewrite run_unfold. apply run_loop_returns. simpl. lia. Qed.

Lemma run_sales (s : Store) : sales (self s) (self (after run s)).
Proof.
  unfold after. rewrite run_unfold.
  match goal with
  | |- sales _ (self (run_loop ?fuel ?s1).2) =>
      exact (run_loop_sales fuel s1)
  end.
Qed.

Lemma sale_or_nothing_nonnegative {A : Type} (s : Store)
    (out : Res A * Store) :
  sale_or_nothing s out ->
  stock_nonnegative (resources (self s)) ->
  stock_nonnegative (resources (self out.2)).
Proof.
  intros (_ & _ & [-> | (d & (Hw & Hm & Hc) & ->)]) Hstock; [exact Hstock |].
  unfold stock_nonnegative. simpl. lia.
Qed.

(** However long the loop runs, it leaves no quantity below zero. *)
Lemma run_loop_nonnegative (fuel : nat) (s : Store) :
  stock_nonnegative (resources (self s)) ->
  stock_nonnegative (resources (self (after (run_loop fuel) s))).
Proof.
  revert s. induction fuel as [| fuel IH]; intros s Hstock; [exact Hstock |].
  unfold after. simpl. monad_simpl.
  pose proof (sale_or_nothing_nonnegative _ _ (proj1 (run_body_effect s))
                Hstock) as Hbody.
  destruct (run_body s) as [[[| |] | e] s']; simpl in *; try exact Hbody.
  - by apply IH.
  - by apply IH.
Qed.

Lemma run_report_self (s : Store) : self (after run_report s) = self s.
Proof.
  unfold after. destruct (stdin (world s)) as [| password rest] eqn:Hin.
  - by rewrite (run_report_eof s Hin).
  - destruct (decide (password = "gcuadmin")) as [-> | Hne].
    + by rewrite (run_report_granted s rest Hin).
    + by rewrite (run_report_denied s password rest Hin Hne).
Qed.

Lemma show_order_history_self (s : Store) :
  self (after show_order_history s) = self s.
Proof.
  unfold after. destruct (decide (orders (self s) = [])) as [Hnone | Hsome].
  - by rewrite (show_order_history_empty s Hnone).
  - by rewrite (show_order_history_some s Hsome).
Qed.

Lemma check_resources_self (d : Drink.t) (s : Store) :
  self (after (check_resources d) s) = self s.
Proof.
  unfold after. destruct (canFulfill_dec (resources (self s)) d) as [Hcan | Hno].
  - by rewrite (check_resources_ok d s Hcan).
  - by destruct (check_resources_closed d s Hno) as [res ->].
Qed.

Lemma call_sales (c : Call) (s : Store) :
  sales (self s) (self (after (call c) s)).
Proof.
  destruct c as [| d | d | | |]; cbn [call].
  - unfold after. rewrite print_report_spec. apply sales_none.
  - rewrite after_then_ret, check_resources_self. apply sales_none.
  - unfold after. rewrite make_drink_spec. apply sales_more, sales_none.
  - rewrite show_order_history_self. apply sales_none.
  - rewrite after_then_ret.
    exact (sale_or_nothing_sales _ _ (proj1 (run_body_effect s))).
  - rewrite after_then_ret. apply run_sales.
Qed.

(** Every machine that can be reached is the fresh one with some sales
    booked. *)
Lemma reachable_sales (m : CoffeeMachine) :
  reachable m -> sales CoffeeMachine__init__ m.
Proof.
  induction 1 as [| m w c _ IH]; [apply sales_none |].
  eapply sales_trans; [exact IH |]. apply (call_sales c (mkStore m w)).
Qed.

Lemma ledger_total_app (l : list Order.t) (o : Order.t) :
  ledger_total (l ++ [o]) = ledger_total l + Order.amount_paid o.
Proof.
  unfold ledger_total. induction l as [| o' l IH]; simpl; [lia |].
  rewrite IH. lia.
Qed.

Lemma sales_ledger (m m' : CoffeeMachine) :
  sales m m' ->
  money_collected m' - ledger_total (orders m') =
    money_collected m - ledger_total (orders m).
Proof.
  induction 1 as [| m m' d ts _ IH]; [reflexivity |].
  simpl. rewrite ledger_total_app. simpl. lia.
Qed.

Lemma run_body_purchase (s : Store) (d : Drink.t) (text : string)
    (rest : list string) :
  purchase s d text rest ->
  run_body s =
    run_order d
      (mkStore (self s) (prompted menu_prompt (text :: rest) (world s))).
Proof.
  intros (line & Hin & Hexit & Hreport & Hhistory & Hmenu).
  rewrite (run_body_menu s line _ Hin Hexit Hreport Hhistory). simpl.
  by rewrite Hmenu.
Qed.

Lemma slice_from_last {A : Type} (n : nat) (l : list A) :
  (0 < n)%nat -> slice_from (- Z.of_nat n) l = recent n l.
Proof.
  intros Hn. unfold slice_from, recent.
  destruct (Z.ltb_spec (- Z.of_nat n) 0); [| lia].
  f_equal. lia.
Qed.

Lemma recent_length {A : Type} (n : nat) (l : list A) :
  length (recent n l) = Nat.min n (length l).
Proof. unfold recent. rewrite length_drop. lia. Qed.

Lemma recent_suffix {A : Type} (n : nat) (l : list A) :
  l = take (length l - n) l ++ recent n l.
Proof. unfold recent. by rewrite take_drop. Qed.

Lemma recent_all {A : Type} (n : nat) (l : list A) :
  (length l <= n)%nat -> recent n l = l.
Proof.
  intros Hlen. unfold recent. by replace (length l - n)%nat with 0%nat by lia.
Qed.

Lemma report_lines_length (m : CoffeeMachine) :
  length (report_lines m) = 7%nat.
Proof. reflexivity. Qed.

(** The report, line by line. *)
Lemma report_lines_spelled (m : CoffeeMachine) :
  report_lines m =
    [Printed (nl +:+ "📊 GCU Coffee Machine Report:");
     Printed ("Water: " +:+ str_of_Z (water (resources m)) +:+ "ml");
     Printed ("Milk: " +:+ str_of_Z (milk (resources m)) +:+ "ml");
     Printed ("Coffee: " +:+ str_of_Z (coffee (resources m)) +:+ "g");
     Printed ("Total Sales: Rs " +:+ str_of_Z (money_collected m));
     Printed ("🧾 Total Orders: " +:+
              str_of_Z (Z.of_nat (length (orders m))));
     Printed ""].
Proof. reflexivity. Qed.

(** *** The claims *)

(** C1.  A pass of the loop that turns a purchase down, because the line
    names no drink of the menu, or because the stock does not cover the
    drink, or because the amount typed is below the cost (or is not a
    number), leaves the whole machine as it was: the stock of water, milk
    and coffee, the ledger of orders and the money collected. *)
Theorem rejected_purchase_changes_nothing (why : Rejection) (s : Store) :
  rejected why s ->
  self (after run_body s) = self s /\
  resources (self (after run_body s)) = resources (self s) /\
  orders (self (after run_body s)) = orders (self s) /\
  money_collected (self (after run_body s)) = money_collected (self s).
Proof.
  intros Hwhy.
  enough (self (after run_body s) = self s) as -> by done.
  unfold rejected in Hwhy.
  destruct (stdin (world s)) as [| line rest] eqn:Hin; [done |].
  unfold after.
  destruct (decide (lower line = "exit")) as [Hexit | Hexit].
  { by rewrite (run_body_exit s line rest Hin Hexit). }
  destruct (decide (lower line = "report")) as [Hreport | Hreport].
  { rewrite (run_body_report s line rest Hin Hreport).
    fold (after (run_report;; mret Normal)
            (mkStore (self s) (prompted menu_prompt rest (world s)))).
    by rewrite after_then_ret, run_report_self. }
  destruct (decide (lower line = "history")) as [Hhistory | Hhistory].
  { rewrite (run_body_history s line rest Hin Hhistory).
    fold (after (show_order_history;; mret Normal)
            (mkStore (self s) (prompted menu_prompt rest (world s)))).
    by rewrite after_then_ret, show_order_history_self. }
  rewrite (run_body_menu s line rest Hin Hexit Hreport Hhistory). simpl.
  destruct why.
  - by rewrite Hwhy.
  - destruct Hwhy as (d & -> & Hno).
    by destruct (run_order_short d
                   (mkStore (self s) (prompted menu_prompt rest (world s)))
                   Hno) as [res ->].
  - destruct Hwhy as (d & text & rest' & amount & -> & Hcan & -> & Hint & Hlow).
    by rewrite (run_order_underpaid d
                  (mkStore (self s)
                     (prompted menu_prompt (text :: rest') (world s)))
                  text rest' amount Hcan eq_refl Hint Hlow).
  - destruct Hwhy as (d & text & rest' & -> & Hcan & -> & Hint).
    by rewrite (run_order_invalid d
                  (mkStore (self s)
                     (prompted menu_prompt (text :: rest') (world s)))
                  text rest' Hcan eq_refl Hint).
Qed.

(** C2.  In every machine that a sequence of operations produces from a
    fresh one, the money collected is the sum of the amounts in the ledger
    of orders (each of which is the price of the drink sold, see C10). *)
Theorem revenue_is_ledger_total (m : CoffeeMachine) :
  reachable m -> money_collected m = ledger_total (orders m).
Proof.
  intros Hreach. pose proof (sales_ledger _ _ (reachable_sales m Hreach)) as H.
  simpl in H. lia.
Qed.

(** C3.  The deduction as the program performs it, [make_drink] behind the
    gate of [check_resources] in the branch of [run] that serves a drink,
    never takes a quantity below zero: the stock after the branch is either
    the stock before it, untouched, or the stock with all three requirements
    taken off, and the latter only if the gate held when the branch
    started. *)
Theorem guarded_deduction_keeps_stock_nonnegative (d : Drink.t) (s : Store) :
  stock_nonnegative (resources (self s)) ->
  let r := resources (self s) in
  let r' := resources (self (after (run_order d) s)) in
  stock_nonnegative r' /\
  (r' = r \/ (canFulfill r d /\ r' = deducted r d)) /\
  (canFulfill r d \/ self (after (run_order d) s) = self s).
Proof.
  intros Hstock r r'. subst r r'. unfold after.
  destruct (canFulfill_dec (resources (self s)) d) as [Hd | Hno].
  2: { destruct (run_order_short d s Hno) as [res ->]. simpl.
       repeat split; auto; apply Hstock. }
  destruct (stdin (world s)) as [| text rest] eqn:Hin.
  { rewrite (run_order_eof d s Hd Hin). simpl.
    repeat split; auto; apply Hstock. }
  destruct (int_of text) as [amount |] eqn:Hint.
  2: { rewrite (run_order_invalid d s text rest Hd Hin Hint). simpl.
       repeat split; auto; apply Hstock. }
  destruct (Z.lt_ge_cases amount (Drink.cost d)) as [Hlow | Hpaid].
  - rewrite (run_order_underpaid d s text rest amount Hd Hin Hint Hlow).
    simpl. repeat split; auto; apply Hstock.
  - rewrite (run_order_paid d s text rest amount Hd Hin Hint Hpaid).
    simpl. pose proof Hd as (Hdw & Hdm & Hdc).
    split; [unfold stock_nonnegative; simpl; lia |].
    split; [right | left]; auto.
Qed.

(** C4.  [check_resources] answers [True] exactly when the stock covers the
    three requirements of the drink, and it changes nothing in the machine:
    all it does besides answering is to write its complaint, if any. *)
Theorem check_resources_is_canFulfill (d : Drink.t) (s : Store) :
  exists (b : bool) (events : list Event),
    check_resources d s =
      (Ret b, mkStore (self s) (wrote events (world s))) /\
    (b = true <->
     Drink.water d <= water (resources (self s)) /\
     Drink.milk d <= milk (resources (self s)) /\
     Drink.coffee d <= coffee (resources (self s))).
Proof.
  destruct (canFulfill_dec (resources (self s)) d) as [Hcan | Hno].
  - exists true, []. rewrite (check_resources_ok d s Hcan). split; [| done].
    unfold wrote. rewrite app_nil_r. by destruct s as [m []].
  - destruct (check_resources_closed d s Hno) as [res ->].
    exists false, [Printed (diagnostic res)]. split; [done |].
    split; [done | intros Hcan; by destruct Hno].
Qed.

(** C5.  In a pass that orders a drink of the menu which the stock covers,
    the amount typed decides: below the cost, the order is turned down, the
    machine (stock, ledger, money) stays as it was and the customer is told
    that the money is refunded; otherwise the sale is booked, and the change
    is the amount less the cost, never negative, announced when it is not
    zero. *)
Theorem payment_decides_the_order (s : Store) (d : Drink.t) (text : string)
    (rest : list string) (amount : Z) :
  purchase s d text rest ->
  canFulfill (resources (self s)) d ->
  int_of text = Some amount ->
  (amount < Drink.cost d ->
   run_body s =
     (Ret Normal,
      mkStore (self s)
        (mkWorld rest
           (stdout (world s) ++
              [Asked menu_prompt;
               Printed ("💰 Please pay Rs " +:+ str_of_Z (Drink.cost d));
               Asked amount_prompt;
               Printed ("❌ Not enough money. Money refunded." +:+ nl)])
           (clock_reads (world s))))) /\
  (Drink.cost d <= amount ->
   0 <= amount - Drink.cost d /\
   run_body s =
     (Ret Normal,
      mkStore (committed (self s) d (clock (clock_reads (world s))))
        (mkWorld rest
           (stdout (world s) ++
              [Asked menu_prompt;
               Printed ("💰 Please pay Rs " +:+ str_of_Z (Drink.cost d));
               Asked amount_prompt] ++
              (if amount - Drink.cost d =? 0 then []
               else [Printed ("💸 Here is your change: Rs " +:+
                            str_of_Z (amount - Drink.cost d))]) ++
              [served_line d])
           (S (clock_reads (world s)))))).
Proof.
  intros Hbuy Hcan Hint. rewrite (run_body_purchase s d text rest Hbuy).
  set (s1 := mkStore (self s) (prompted menu_prompt (text :: rest) (world s))).
  split.
  - intros Hlow.
    rewrite (run_order_underpaid d s1 text rest amount Hcan eq_refl Hint Hlow).
    unfold wrote, prompted, asked_to_pay. simpl.
    by rewrite <- !app_assoc.
  - intros Hpaid. split; [lia |].
    rewrite (run_order_paid d s1 text rest amount Hcan eq_refl Hint Hpaid).
    simpl. unfold change_lines.
    destruct (Z.ltb_spec 0 (amount - Drink.cost d));
      destruct (Z.eqb_spec (amount - Drink.cost d) 0); try lia;
      by rewrite <- !app_assoc.
Qed.

(** C7, as the program has it.  The history screen has no parameter: it
    lists the last five orders.  With an empty ledger it writes a notice and
    returns; otherwise it writes the records [recent 5] picks, oldest first.
    Those are at most five, they are the end of the ledger, and they are the
    whole ledger when it holds five orders or fewer. *)
Theorem history_shows_the_last_five (s : Store) :
  let l := orders (self s) in
  show_order_history s =
    (Ret tt,
     mkStore (self s)
       (wrote match l with
              | [] => [Printed ("📭 No orders placed yet." +:+ nl)]
              | _ :: _ => history_screen (recent 5 l)
              end (world s))) /\
  length (recent 5 l) = Nat.min 5 (length l) /\
  l = take (length l - 5) l ++ recent 5 l /\
  (recent 5 l = l \/ (5 < length l)%nat).
Proof.
  intros l. subst l. split; [| split; [| split]].
  - destruct (orders (self s)) as [| o l] eqn:Horders.
    + by apply show_order_history_empty.
    + rewrite show_order_history_some by (by rewrite Horders).
      by rewrite Horders, (slice_from_last 5) by lia.
  - apply recent_length.
  - apply recent_suffix.
  - destruct (Nat.le_gt_cases (length (orders (self s))) 5) as [Hle | Hgt].
    + left. by apply recent_all.
    + right. exact Hgt.
Qed.

(** C8.  [check_resources] looks at water, then milk, then coffee: when a
    resource is short and none before it in that order is, the complaint
    written is the one for that resource, and it is the only thing written,
    whatever the state of the resources after it. *)
Theorem first_shortage_is_reported (res : Resource) (d : Drink.t)
    (s : Store) :
  stock res (resources (self s)) < need res d ->
  (forall res', (rank res' < rank res)%nat ->
                need res' d <= stock res' (resources (self s))) ->
  (check_resources d s).1 = Ret false /\
  emitted (check_resources d) s = [Printed (diagnostic res)].
Proof.
  intros Hshort Hbefore.
  pose proof (check_resources_short res d s Hshort Hbefore) as Hcheck.
  split; [by rewrite Hcheck |].
  apply emitted_wrote. unfold after. by rewrite Hcheck.
Qed.

(** C9.  After [report], the line typed next is compared with ["gcuadmin"],
    as it is.  Exactly when the two are equal the report is written: its
    heading, the water, the milk and the coffee in stock, the money
    collected, the number of orders and an empty line.  Anything else gets
    the refusal and no report.  In both cases the machine is left as it
    was, and nothing but the two lines typed is read. *)
Theorem report_needs_the_password (s : Store) (line password : string)
    (rest : list string) :
  stdin (world s) = line :: password :: rest ->
  lower line = "report" ->
  let m := self s in
  let report :=
    [Printed (nl +:+ "📊 GCU Coffee Machine Report:");
     Printed ("Water: " +:+ str_of_Z (water (resources m)) +:+ "ml");
     Printed ("Milk: " +:+ str_of_Z (milk (resources m)) +:+ "ml");
     Printed ("Coffee: " +:+ str_of_Z (coffee (resources m)) +:+ "g");
     Printed ("Total Sales: Rs " +:+ str_of_Z (money_collected m));
     Printed ("🧾 Total Orders: " +:+
              str_of_Z (Z.of_nat (length (orders m))));
     Printed ""] in
  let refusal := [Printed ("❌ Access denied." +:+ nl)] in
  exists out,
    run_body s =
      (Ret Normal,
       mkStore m
         (mkWorld rest
            (stdout (world s) ++
               [Asked menu_prompt; Asked password_prompt] ++ out)
            (clock_reads (world s)))) /\
    (out = report <-> password = "gcuadmin") /\
    (out = refusal <-> password <> "gcuadmin").
Proof.
  intros Hin Hreport m report refusal.
  rewrite (run_body_report s line _ Hin Hreport). monad_simpl.
  destruct (decide (password = "gcuadmin")) as [-> | Hne].
  - exists report.
    rewrite (run_report_granted
               (mkStore (self s)
                  (prompted menu_prompt ("gcuadmin" :: rest) (world s)))
               rest eq_refl). simpl.
    rewrite report_lines_spelled.
    split; [| split; [done |]].
    + unfold wrote, prompted. simpl. by rewrite <- !app_assoc.
    + split; [| done]. intros Heq. by apply (f_equal length) in Heq.
  - exists refusal.
    rewrite (run_report_denied
               (mkStore (self s)
                  (prompted menu_prompt (password :: rest) (world s)))
               password rest eq_refl Hne). simpl.
    split; [| split; [| done]].
    + unfold wrote, prompted. simpl. by rewrite <- !app_assoc.
    + split; [| done]. intros Heq. by apply (f_equal length) in Heq.
Qed.

(** C10.  When a sale is booked, the record added to the ledger carries the
    cost of the drink as the amount paid, whatever was tendered; the machine
    after the sale is the same for every amount that covers the cost, so
    nothing in it tells an overpayment. *)
Theorem ledger_records_the_price (s : Store) (d : Drink.t) (text : string)
    (rest : list string) (amount : Z) :
  purchase s d text rest ->
  canFulfill (resources (self s)) d ->
  int_of text = Some amount ->
  Drink.cost d <= amount ->
  orders (self (after run_body s)) =
    orders (self s) ++
      [Order.Build (Drink.name d) (Drink.cost d)
                   (clock (clock_reads (world s)))] /\
  self (after run_body s) =
    committed (self s) d (clock (clock_reads (world s))) /\
  (Drink.cost d < amount ->
   forall o, last (orders (self (after run_body s))) = Some o ->
             Order.amount_paid o <> amount).
Proof.
  intros Hbuy Hcan Hint Hpaid. unfold after.
  rewrite (run_body_purchase s d text rest Hbuy).
  set (s1 := mkStore (self s) (prompted menu_prompt (text :: rest) (world s))).
  rewrite (run_order_paid d s1 text rest amount Hcan eq_refl Hint Hpaid).
  simpl. split; [done | split; [done |]].
  intros Hover o. rewrite last_snoc. intros [= <-]. simpl. lia.
Qed.

(** ** More on the loop *)

Lemma run_body_pass (s : Store) : pass s (run_body s).
Proof.
  destruct (stdin (world s)) as [| line rest] eqn:Hin.
  { rewrite (run_body_eof s Hin). by apply pass_crash. }
  destruct (decide (lower line = "exit")) as [Hexit | Hexit].
  { rewrite (run_body_exit s line rest Hin Hexit).
    by apply (pass_quit s line). }
  destruct (decide (lower line = "report")) as [Hreport | Hreport].
  { rewrite (run_body_report s line rest Hin Hreport). monad_simpl.
    destruct rest as [| password rest].
    - rewrite (run_report_eof
                 (mkStore (self s) (prompted menu_prompt [] (world s)))
                 eq_refl).
      by apply pass_crash.
    - destruct (decide (password = "gcuadmin")) as [-> | Hne].
      + rewrite (run_report_granted
                   (mkStore (self s)
                      (prompted menu_prompt ("gcuadmin" :: rest) (world s)))
                   rest eq_refl).
        by apply (pass_idle s Normal [line; "gcuadmin"]).
      + rewrite (run_report_denied
                   (mkStore (self s)
                      (prompted menu_prompt (password :: rest) (world s)))
                   password rest eq_refl Hne).
        by apply (pass_idle s Normal [line; password]). }
  destruct (decide (lower line = "history")) as [Hhistory | Hhistory].
  { rewrite (run_body_history s line rest Hin Hhistory). monad_simpl.
    destruct (decide (orders (self s) = [])) as [Hnone | Hsome].
    - rewrite (show_order_history_empty
                 (mkStore (self s) (prompted menu_prompt rest (world s)))
                 Hnone).
      by apply (pass_idle s Normal [line]).
    - rewrite (show_order_history_some
                 (mkStore (self s) (prompted menu_prompt rest (world s)))
                 Hsome).
      by apply (pass_idle s Normal [line]). }
  rewrite (run_body_menu s line rest Hin Hexit Hreport Hhistory). simpl.
  destruct (menu (self s) !! lower line) as [d |] eqn:Hmenu.
  2: { by apply (pass_idle s Normal [line]). }
  destruct (canFulfill_dec (resources (self s)) d) as [Hcan | Hno].
  2: { destruct (run_order_short d
                   (mkStore (self s) (prompted menu_prompt rest (world s)))
                   Hno) as [res ->].
       by apply (pass_idle s Normal [line]). }
  destruct rest as [| text rest].
  { rewrite (run_order_eof d
               (mkStore (self s) (prompted menu_prompt [] (world s)))
               Hcan eq_refl).
    by apply pass_crash. }
  destruct (int_of text) as [amount |] eqn:Hint.
  2: { rewrite (run_order_invalid d
                  (mkStore (self s)
                     (prompted menu_prompt (text :: rest) (world s)))
                  text rest Hcan eq_refl Hint).
       by apply (pass_idle s Continue [line; text]). }
  destruct (Z.lt_ge_cases amount (Drink.cost d)) as [Hlow | Hpaid].
  - rewrite (run_order_underpaid d
               (mkStore (self s)
                  (prompted menu_prompt (text :: rest) (world s)))
               text rest amount Hcan eq_refl Hint Hlow).
    by apply (pass_idle s Normal [line; text]).
  - rewrite (run_order_paid d
               (mkStore (self s)
                  (prompted menu_prompt (text :: rest) (world s)))
               text rest amount Hcan eq_refl Hint Hpaid).
    by apply (pass_sale s line text d).
Qed.

Lemma run_loop_step (fuel : nat) (s : Store) :
  run_loop (S fuel) s =
    match run_body s with
    | (Ret Break, s') => (Ret (Some tt), s')
    | (Ret _, s') => run_loop fuel s'
    | (Raise e, s') => (Raise e, s')
    end.
Proof.
  simpl. monad_simpl. by destruct (run_body s) as [[[| |] | e] s'].
Qed.

(** What every pass keeps, the loop keeps. *)
Lemma run_loop_invariant (I : Store -> Prop) :
  (forall s out, I s -> pass s out -> I out.2) ->
  forall (fuel : nat) (s : Store), I s -> I (after (run_loop fuel) s).
Proof.
  intros Hkeep fuel. induction fuel as [| fuel IH]; intros s Hs; [exact Hs |].
  unfold after. rewrite run_loop_step.
  pose proof (Hkeep s _ Hs (run_body_pass s)) as Hbody.
  destruct (run_body s) as [[[| |] | e] s']; simpl in *;
    try exact Hbody; by apply IH.
Qed.



(** X2.  A whole [run] that starts with no quantity below zero ends with no
    quantity below zero, however many drinks are ordered and however the
    session ends. *)
Theorem run_keeps_stock_nonnegative (s : Store) :
  stock_nonnegative (resources (self s)) ->
  stock_nonnegative (resources (self (after run s))).
Proof.
  intros Hstock. unfold after. rewrite run_unfold.
  exact (run_loop_nonnegative (S (length (stdin (world s))))
           (mkStore (self s)
              (wrote [Printed ("👋 Welcome to GCU Coffee Machine!" +:+ nl)]
                     (world s)))
           Hstock).
Qed.

Lemma sales_menu_ledger (m m' : CoffeeMachine) :
  sales m m' ->
  menu m' = menu m /\ exists new, orders m' = orders m ++ new.
Proof.
  induction 1 as [| m m' d ts _ (IHmenu & new & IHorders)].
  - split; [done |]. exists []. by rewrite app_nil_r.
  - simpl. split; [exact IHmenu |].
    exists (new ++ [Order.Build (Drink.name d) (Drink.cost d) ts]).
    by rewrite IHorders, <- app_assoc.
Qed.

(** X3.  No operation of the machine touches the menu, and none removes,
    reorders or rewrites a record of the ledger: whatever is called, and
    however it ends, the ledger afterwards is the ledger before with new
    records (possibly none) at its end. *)
Theorem menu_is_fixed_and_ledger_only_grows (c : Call) (s : Store) :
  menu (self (after (call c) s)) = menu (self s) /\
  exists new,
    orders (self (after (call c) s)) = orders (self s) ++ new.
Proof. exact (sales_menu_ledger _ _ (call_sales c s)). Qed.

Lemma menu_drinks (key : string) (d : Drink.t) :
  menu CoffeeMachine__init__ !! key = Some d ->
  d = espresso \/ d = latte \/ d = cappuccino.
Proof.
  intros Hkey. apply elem_of_list_to_map_2 in Hkey.
  apply elem_of_cons in Hkey as [[= _ ->] | Hkey]; [by left |].
  apply elem_of_cons in Hkey as [[= _ ->] | Hkey]; [by right; left |].
  apply elem_of_cons in Hkey as [[= _ ->] | Hkey]; [by right; right |].
  by apply elem_of_nil in Hkey.
Qed.

(** The store in which [main] enters the loop. *)
Lemma main_unfold (lines : list string) :
  main lines =
    run_loop (S (length lines))
      (mkStore CoffeeMachine__init__
         (mkWorld lines
            [Printed ("👋 Welcome to GCU Coffee Machine!" +:+ nl)] 0)).
Proof. reflexivity. Qed.

Lemma main_invariant (I : Store -> Prop) (lines : list string) :
  I (mkStore CoffeeMachine__init__
       (mkWorld lines
          [Printed ("👋 Welcome to GCU Coffee Machine!" +:+ nl)] 0)) ->
  (forall s out, I s -> pass s out -> I out.2) ->
  I (main lines).2.
Proof.
  intros Hstart Hkeep. rewrite main_unfold.
  exact (run_loop_invariant I Hkeep _ _ Hstart).
Qed.

(** Every sale of a session costs the machine at least 18 grams of coffee
    out of the 300 it starts with. *)
Lemma session_capacity (lines : list string) :
  let m := self (main lines).2 in
  0 <= coffee (resources m) /\
  coffee (resources m) + 18 * Z.of_nat (length (orders m)) <= 300.
Proof.
  pose (I := fun s : Store =>
    menu (self s) = menu CoffeeMachine__init__ /\
    0 <= coffee (resources (self s)) /\
    coffee (resources (self s)) +
      18 * Z.of_nat (length (orders (self s))) <= 300).
  enough (I (main lines).2) as (_ & Hpos & Hcap) by done.
  apply main_invariant; [by unfold I; simpl |].
  intros s out (Hmenu & Hpos & Hcap) Hpass. unfold I.
  inversion Hpass as [s1 Hself Hin Hclock | line s1 Hin Hexit Hself Hclock
                     | ctl consumed s1 Hctl Hsome Hin Hself Hclock
                     | line text d s1 Hin Hkey Hcan Hself Hclock]; subst;
    simpl; rewrite Hself; try done.
  simpl. rewrite Hmenu in Hkey. split; [exact Hmenu |].
  destruct Hcan as (_ & _ & Hcoffee). rewrite length_app. simpl.
  destruct (menu_drinks _ _ Hkey) as [-> | [-> | ->]]; simpl in *; lia.
Qed.

(** X11.  In a session of the program the clock is read once for each
    order booked and at no other time, and the orders carry the readings in
    the order they were made: the [i]-th order of the ledger is stamped with
    the [i]-th reading. *)
Theorem orders_are_stamped_in_order (lines : list string) :
  let s' := (main lines).2 in
  clock_reads (world s') = length (orders (self s')) /\
  map Order.timestamp (orders (self s')) =
    map clock (seq 0 (length (orders (self s')))).
Proof.
  pose (I := fun s : Store =>
    clock_reads (world s) = length (orders (self s)) /\
    map Order.timestamp (orders (self s)) =
      map clock (seq 0 (length (orders (self s))))).
  change (I (main lines).2).
  apply main_invariant; [by unfold I; simpl |].
  intros s out (Hreads & Hstamps) Hpass. unfold I.
  inversion Hpass as [s1 Hself Hin Hclock | line s1 Hin Hexit Hself Hclock
                     | ctl consumed s1 Hctl Hsome Hin Hself Hclock
                     | line text d s1 Hin Hkey Hcan Hself Hclock]; subst;
    simpl; rewrite Hself, Hclock; try done.
  simpl. rewrite length_app, map_app, Hstamps, Hreads. simpl.
  split; [lia |].
  replace (length (orders (self s)) + 1)%nat
    with (S (length (orders (self s)))) by lia.
  by rewrite seq_S, map_app.
Qed.

(** X12.  In a session of the program every record of the ledger is one of
    the three entries of the catalog: the display name of a drink of the
    menu with the price of that drink. *)
Theorem ledger_holds_catalog_entries (lines : list string) :
  Forall (fun o => (Order.drink_name o, Order.amount_paid o) ∈ catalog)
         (orders (self (main lines).2)).
Proof.
  pose (I := fun s : Store =>
    menu (self s) = menu CoffeeMachine__init__ /\
    Forall (fun o => (Order.drink_name o, Order.amount_paid o) ∈ catalog)
           (orders (self s))).
  enough (I (main lines).2) as (_ & Hall) by done.
  apply main_invariant; [by unfold I; simpl |].
  intros s out (Hmenu & Hall) Hpass. unfold I.
  inversion Hpass as [s1 Hself Hin Hclock | line s1 Hin Hexit Hself Hclock
                     | ctl consumed s1 Hctl Hsome Hin Hself Hclock
                     | line text d s1 Hin Hkey Hcan Hself Hclock]; subst;
    simpl; rewrite Hself; try done.
  simpl. rewrite Hmenu in Hkey. split; [exact Hmenu |].
  apply Forall_app. split; [exact Hall |]. apply Forall_singleton. simpl.
  unfold catalog.
  destruct (menu_drinks _ _ Hkey) as [-> | [-> | ->]]; simpl; set_solver.
Qed.

Lemma lower_ascii_idempotent (c : ascii) :
  lower_ascii (lower_ascii c) = lower_ascii c.
Proof. by destruct c as [[] [] [] [] [] [] [] []]. Qed.

Lemma lower_idempotent (text : string) : lower (lower text) = lower text.
Proof.
  induction text as [| c text IH]; simpl; [done |].
  by rewrite lower_ascii_idempotent, IH.
Qed.

(** X5.  The choice typed at the menu prompt is read without regard to
    case: a pass does exactly the same, to the machine, to the terminal and
    to the clock, whether a line or its lowering is typed. *)
Theorem choice_is_read_without_case (m : CoffeeMachine) (line : string)
    (rest : list string) (out : list Event) (reads : nat) :
  run_body (mkStore m (mkWorld (line :: rest) out reads)) =
    run_body (mkStore m (mkWorld (lower line :: rest) out reads)).
Proof.
  unfold run_body, input. monad_simpl. by rewrite lower_idempotent.
Qed.

(** X6.  When the drink chosen is on the menu and the stock does not cover
    it, the pass ends right after the complaint: no price is announced, no
    amount is asked for, and the line typed after the choice is still there
    to be read as the next choice. *)
Theorem no_payment_is_asked_when_stock_is_short (s : Store) (line : string)
    (rest : list string) (d : Drink.t) :
  stdin (world s) = line :: rest ->
  lower line <> "exit" -> lower line <> "report" ->
  lower line <> "history" ->
  menu (self s) !! lower line = Some d ->
  ~ canFulfill (resources (self s)) d ->
  exists res,
    run_body s =
      (Ret Normal,
       mkStore (self s)
         (mkWorld rest
            (stdout (world s) ++
               [Asked menu_prompt; Printed (diagnostic res)])
            (clock_reads (world s)))).
Proof.
  intros Hin Hexit Hreport Hhistory Hmenu Hno.
  rewrite (run_body_menu s line rest Hin Hexit Hreport Hhistory). simpl.
  rewrite Hmenu.
  destruct (run_order_short d
              (mkStore (self s) (prompted menu_prompt rest (world s)))
              Hno) as [res ->].
  exists res. unfold wrote, prompted. simpl. by rewrite <- app_assoc.
Qed.

(** X7.  A pass that ends in an exception has booked nothing: the
    exception is the one for the end of the input, the machine is as it was
    before the pass, and the clock was not read.  In particular, input that
    stops after the name of a drink, where the amount is asked for, costs no
    stock and adds no order. *)
Theorem a_crashed_pass_books_nothing (s : Store) (e : Exn) :
  (run_body s).1 = Raise e ->
  e = EOFError /\
  self (after run_body s) = self s /\
  stdin (world (after run_body s)) = [] /\
  clock_reads (world (after run_body s)) = clock_reads (world s).
Proof.
  intros Hraise. unfold after. pose proof (run_body_pass s) as Hpass.
  destruct (run_body s) as [r s']. simpl in Hraise. subst r.
  by inversion Hpass; subst.
Qed.

(** X8.  [make_drink] takes the requirements off the stock without looking
    at it: it leaves no quantity below zero exactly when the stock covered
    the drink before the call.  Called when [check_resources] would answer
    [False], it leaves a negative quantity. *)
Theorem make_drink_relies_on_the_check (d : Drink.t) (s : Store) :
  stock_nonnegative (resources (self (after (make_drink d) s))) <->
  canFulfill (resources (self s)) d.
Proof.
  unfold after. rewrite make_drink_spec.
  unfold stock_nonnegative, canFulfill. simpl. lia.
Qed.

Lemma recent_snoc {A : Type} (n : nat) (l : list A) (x : A) :
  recent (S n) (l ++ [x]) = recent n l ++ [x].
Proof.
  unfold recent. rewrite length_app. simpl.
  replace (length l + 1 - S n)%nat with (length l - n)%nat by lia.
  apply drop_app_le. lia.
Qed.

(** X9.  Right after [make_drink], the history screen ends with the drink
    just made: its line, with the reading of the clock, the name of the
    drink and its cost, is the last of the at most five lines listed. *)
Theorem newest_order_is_listed_last (d : Drink.t) (s : Store) :
  exists earlier,
    (length earlier <= 4)%nat /\
    emitted show_order_history (after (make_drink d) s) =
      Printed "📜 Order History (Last 5 orders):" ::
      earlier ++
      [Printed (clock (clock_reads (world s)) +:+ " - " +:+ Drink.name d +:+
                " - Rs " +:+ str_of_Z (Drink.cost d));
       Printed ""].
Proof.
  exists (map (fun order => Printed (history_line order))
            (recent 4 (orders (self s)))).
  split; [rewrite length_map, recent_length; lia |].
  unfold after. rewrite make_drink_spec. cbn [snd].
  apply emitted_wrote. unfold after.
  rewrite show_order_history_some by (simpl; by destruct (orders (self s))).
  simpl. rewrite (slice_from_last 5) by lia. rewrite recent_snoc.
  unfold history_screen. rewrite map_app. simpl.
  by rewrite <- app_assoc.
Qed.

(** X10.  On every machine that a sequence of operations produces from a
    fresh one, the report tells the truth about the ledger: its sales line
    shows the sum of the amounts of the orders, and its orders line shows
    how many there are. *)
Theorem report_agrees_with_the_ledger (m : CoffeeMachine) :
  reachable m ->
  Printed ("Total Sales: Rs " +:+ str_of_Z (ledger_total (orders m)))
    ∈ report_lines m /\
  Printed ("🧾 Total Orders: " +:+ str_of_Z (Z.of_nat (length (orders m))))
    ∈ report_lines m.
Proof.
  intros Hreach.
  pose proof (sales_ledger _ _ (reachable_sales m Hreach)) as Hmoney.
  simpl in Hmoney.
  assert (Hsum : ledger_total (orders m) = money_collected m) by lia.
  rewrite Hsum. unfold report_lines, emitted, print_report, print.
  monad_simpl. set_solver.
Qed.

(** X13.  The report and the history are read-only and cannot fail: each
    returns normally, leaves the machine exactly as it was, reads no line
    and does not read the clock; all either does is write. *)
Theorem reporting_is_read_only (s : Store) :
  (exists events,
     print_report s = (Ret tt, mkStore (self s) (wrote events (world s)))) /\
  (exists events,
     show_order_history s =
       (Ret tt, mkStore (self s) (wrote events (world s)))).
Proof.
  split.
  - eexists. apply print_report_spec.
  - destruct (decide (orders (self s) = [])) as [Hnone | Hsome].
    + eexists. by apply show_order_history_empty.
    + eexists. by apply show_order_history_some.
Qed.

(** X14.  When what is typed as the amount is not a number, the order is
    dropped: the complaint is written, the machine is left as it was, the
    pass ends by [continue], and the amount is not asked for again (the next
    line typed is read as a new choice). *)
Theorem a_malformed_amount_cancels_the_order (s : Store) (d : Drink.t)
    (text : string) (rest : list string) :
  purchase s d text rest ->
  canFulfill (resources (self s)) d ->
  int_of text = None ->
  run_body s =
    (Ret Continue,
     mkStore (self s)
       (mkWorld rest
          (stdout (world s) ++
             [Asked menu_prompt;
              Printed ("💰 Please pay Rs " +:+ str_of_Z (Drink.cost d));
              Asked amount_prompt;
              Printed ("❌ Invalid input. Please enter a number." +:+ nl)])
          (clock_reads (world s)))).
Proof.
  intros Hbuy Hcan Hint. rewrite (run_body_purchase s d text rest Hbuy).
  set (s1 := mkStore (self s) (prompted menu_prompt (text :: rest) (world s))).
  rewrite (run_order_invalid d s1 text rest Hcan eq_refl Hint).
  unfold wrote, prompted, asked_to_pay. simpl. by rewrite <- !app_assoc.
Qed.

(** X15.  A payment that was turned down can be tried again at once: when
    the same drink is chosen in the next pass and enough is typed, the sale
    is booked as if the first attempt had not been made: the refusal read
    no clock and left nothing behind in the machine. *)
Theorem a_refused_payment_can_be_retried (s : Store) (d : Drink.t)
    (line text1 text2 : string) (rest : list string) (low enough : Z) :
  stdin (world s) = line :: text1 :: line :: text2 :: rest ->
  lower line <> "exit" -> lower line <> "report" ->
  lower line <> "history" ->
  menu (self s) !! lower line = Some d ->
  canFulfill (resources (self s)) d ->
  int_of text1 = Some low -> low < Drink.cost d ->
  int_of text2 = Some enough -> Drink.cost d <= enough ->
  ((run_body;; run_body) s).1 = Ret Normal /\
  self (after (run_body;; run_body) s) =
    committed (self s) d (clock (clock_reads (world s))) /\
  stdin (world (after (run_body;; run_body) s)) = rest.
Proof.
  intros Hin Hexit Hreport Hhistory Hmenu Hcan Hlow1 Hlow Hint2 Hpaid.
  assert (Hfirst : purchase s d text1 (line :: text2 :: rest)).
  { exists line. auto. }
  unfold after.
  change ((run_body;; run_body) s)
    with (match run_body s with
          | (Ret _, s') => run_body s'
          | (Raise e, s') => (Raise e, s')
          end).
  rewrite (run_body_purchase s d text1 _ Hfirst).
  set (s1 := mkStore (self s)
               (prompted menu_prompt (text1 :: line :: text2 :: rest)
                         (world s))).
  rewrite (run_order_underpaid d s1 text1 _ low Hcan eq_refl Hlow1 Hlow).
  match goal with |- context [run_body ?s2] => set (s' := s2) end.
  assert (Hsecond : purchase s' d text2 rest).
  { exists line. subst s'. simpl. auto. }
  rewrite (run_body_purchase s' d text2 rest Hsecond).
  set (s1' := mkStore (self s')
                (prompted menu_prompt (text2 :: rest) (world s'))).
  rewrite (run_order_paid d s1' text2 rest enough Hcan eq_refl Hint2 Hpaid).
  by simpl.
Qed.

End Machine.

(** ** The scenarios *)

(** The store [three_orders] is what three purchases leave. *)
Lemma three_orders_reached :
  self (after (run stopped_clock py_int)
          (fresh ["espresso"; "100"; "latte"; "250"; "espresso"; "100";
                  "exit"])) =
    self (three_orders []).
Proof. vm_compute. reflexivity. Qed.

(** C6.  On a fresh machine (water 1000, milk 800, coffee 300), ordering
    ["espresso"] (water 50, milk 0, coffee 18, cost 100) and typing [100]
    books the sale with no change to give back: the stock is then water 950,
    milk 800 and coffee 282, the money collected is 100 and the ledger holds
    one order. *)
Theorem espresso_for_exactly_100 (clock : nat -> string)
    (rest : list string) :
  resources CoffeeMachine__init__ = mkResources 1000 800 300 /\
  menu CoffeeMachine__init__ !! "espresso" =
    Some (Drink.Build "Espresso" 50 0 18 100) /\
  run_body clock py_int (fresh ("espresso" :: "100" :: rest)) =
    (Ret Normal,
     mkStore
       {| resources := mkResources 950 800 282;
          menu := menu CoffeeMachine__init__;
          money_collected := 100;
          orders := [Order.Build "Espresso" 100 (clock 0%nat)] |}
       (mkWorld rest
          [Asked menu_prompt;
           Printed "💰 Please pay Rs 100";
           Asked amount_prompt;
           Printed ("✅ Here's your Espresso! Enjoy ☕" +:+ nl)]
          1)) /\
  change_lines (100 - 100) = [] /\
  length (orders (self (after (run_body clock py_int)
                          (fresh ("espresso" :: "100" :: rest))))) = 1%nat.
Proof. repeat split; reflexivity. Qed.

(** C7, as the claim has it, fails: asked for the two most recent of three
    orders, the only history screen the program has lists all three, so what
    it lists is not a sequence of at most two records. *)
Lemma history_screen_ignores_the_count :
  emitted show_order_history (three_orders []) =
    history_screen (orders (self (three_orders []))) /\
  length (orders (self (three_orders []))) = 3%nat /\
  recent 2 (orders (self (three_orders []))) <>
    orders (self (three_orders [])) /\
  ~ exists shown : list Order.t,
      (length shown <= 2)%nat /\
      emitted show_order_history (three_orders []) = history_screen shown.
Proof.
  assert (Hscreen : emitted show_order_history (three_orders []) =
                    history_screen (orders (self (three_orders [])))).
  { vm_compute. reflexivity. }
  split; [exact Hscreen |]. split; [reflexivity |]. split.
  - vm_compute. discriminate.
  - intros (shown & Hlen & Hshown). rewrite Hscreen in Hshown.
    apply (f_equal length) in Hshown. unfold history_screen in Hshown.
    simpl in Hshown. rewrite !length_app, !length_map in Hshown.
    simpl in Hshown. lia.
Qed.

(** ** Instances of the claims

    Each of the general properties above, used on a concrete store with
    [py_int] for [int] and the stopped clock. *)

Lemma rejected_purchase_changes_nothing_witness :
  (rejected py_int UnknownDrink (fresh ["mocha"; "100"]) /\
   self (after (run_body stopped_clock py_int) (fresh ["mocha"; "100"])) =
     self (fresh ["mocha"; "100"])) /\
  (rejected py_int InsufficientResource (drained ["cappuccino"; "250"]) /\
   self (after (run_body stopped_clock py_int)
           (drained ["cappuccino"; "250"])) =
     self (drained ["cappuccino"; "250"])) /\
  (rejected py_int InsufficientPayment (fresh ["latte"; "150"]) /\
   self (after (run_body stopped_clock py_int) (fresh ["latte"; "150"])) =
     self (fresh ["latte"; "150"])) /\
  (rejected py_int InvalidInputFormat (fresh ["latte"; "lots"]) /\
   self (after (run_body stopped_clock py_int) (fresh ["latte"; "lots"])) =
     self (fresh ["latte"; "lots"])).
Proof.
  assert (H1 : rejected py_int UnknownDrink (fresh ["mocha"; "100"])).
  { reflexivity. }
  assert (H2 : rejected py_int InsufficientResource
                 (drained ["cappuccino"; "250"])).
  { exists cappuccino. split; [reflexivity |].
    unfold canFulfill. simpl. lia. }
  assert (H3 : rejected py_int InsufficientPayment (fresh ["latte"; "150"])).
  { exists latte, "150", [], 150.
    split; [reflexivity |]. split; [unfold canFulfill; simpl; lia |].
    split; [reflexivity |]. split; [reflexivity | simpl; lia]. }
  assert (H4 : rejected py_int InvalidInputFormat (fresh ["latte"; "lots"])).
  { exists latte, "lots", [].
    split; [reflexivity |]. split; [unfold canFulfill; simpl; lia |].
    split; reflexivity. }
  split; [| split; [| split]].
  - split; [exact H1 |].
    apply (rejected_purchase_changes_nothing stopped_clock py_int _ _ H1).
  - split; [exact H2 |].
    apply (rejected_purchase_changes_nothing stopped_clock py_int _ _ H2).
  - split; [exact H3 |].
    apply (rejected_purchase_changes_nothing stopped_clock py_int _ _ H3).
  - split; [exact H4 |].
    apply (rejected_purchase_changes_nothing stopped_clock py_int _ _ H4).
Defined.

Lemma revenue_is_ledger_total_witness :
  let m :=
    self (after (call stopped_clock py_int call_run)
            (fresh ["espresso"; "100"; "latte"; "250"; "mocha"; "exit"])) in
  reachable stopped_clock py_int m /\
  money_collected m = 300 /\
  money_collected m = ledger_total (orders m).
Proof.
  intros m.
  assert (Hreach : reachable stopped_clock py_int m).
  { apply (reachable_call stopped_clock py_int CoffeeMachine__init__
             (mkWorld ["espresso"; "100"; "latte"; "250"; "mocha"; "exit"]
                      [] 0)
             call_run).
    apply reachable_init. }
  split; [exact Hreach |]. split; [reflexivity |].
  apply (revenue_is_ledger_total stopped_clock py_int m Hreach).
Defined.

Lemma guarded_deduction_keeps_stock_nonnegative_witness :
  stock_nonnegative (resources (self (fresh ["250"]))) /\
  let r := resources (self (fresh ["250"])) in
  let r' :=
    resources (self (after (run_order stopped_clock py_int latte)
                       (fresh ["250"]))) in
  stock_nonnegative r' /\
  (r' = r \/ (canFulfill r latte /\ r' = deducted r latte)) /\
  (canFulfill r latte \/
   self (after (run_order stopped_clock py_int latte) (fresh ["250"])) =
     self (fresh ["250"])).
Proof.
  assert (Hstock : stock_nonnegative (resources (self (fresh ["250"])))).
  { unfold stock_nonnegative. simpl. lia. }
  split; [exact Hstock |].
  apply (guarded_deduction_keeps_stock_nonnegative stopped_clock py_int
           latte (fresh ["250"]) Hstock).
Defined.

Lemma payment_decides_the_order_witness :
  (purchase (fresh ["Espresso"; "150"; "exit"]) espresso "150" ["exit"] /\
   canFulfill (resources (self (fresh ["Espresso"; "150"; "exit"])))
              espresso /\
   py_int "150" = Some 150 /\
   Drink.cost espresso <= 150 /\
   0 <= 150 - Drink.cost espresso /\
   run_body stopped_clock py_int (fresh ["Espresso"; "150"; "exit"]) =
     (Ret Normal,
      mkStore (committed CoffeeMachine__init__ espresso (stopped_clock 0%nat))
        (mkWorld ["exit"]
           [Asked menu_prompt;
            Printed "💰 Please pay Rs 100";
            Asked amount_prompt;
            Printed "💸 Here is your change: Rs 50";
            served_line espresso]
           1))) /\
  (purchase (fresh ["latte"; "150"]) latte "150" [] /\
   canFulfill (resources (self (fresh ["latte"; "150"]))) latte /\
   py_int "150" = Some 150 /\
   150 < Drink.cost latte /\
   run_body stopped_clock py_int (fresh ["latte"; "150"]) =
     (Ret Normal,
      mkStore CoffeeMachine__init__
        (mkWorld []
           [Asked menu_prompt;
            Printed "💰 Please pay Rs 200";
            Asked amount_prompt;
            Printed ("❌ Not enough money. Money refunded." +:+ nl)]
           0))).
Proof.
  assert (Hint : py_int "150" = Some 150) by reflexivity.
  split.
  - assert (Hbuy : purchase (fresh ["Espresso"; "150"; "exit"]) espresso
                     "150" ["exit"]).
    { exists "Espresso". repeat split; try discriminate; reflexivity. }
    assert (Hcan : canFulfill
                     (resources (self (fresh ["Espresso"; "150"; "exit"])))
                     espresso).
    { unfold canFulfill. simpl. lia. }
    assert (Hpaid : Drink.cost espresso <= 150) by (simpl; lia).
    split; [exact Hbuy |]. split; [exact Hcan |]. split; [exact Hint |].
    split; [exact Hpaid |].
    exact (proj2 (payment_decides_the_order stopped_clock py_int _ _ _ _ _
                    Hbuy Hcan Hint) Hpaid).
  - assert (Hbuy : purchase (fresh ["latte"; "150"]) latte "150" []).
    { exists "latte". repeat split; try discriminate; reflexivity. }
    assert (Hcan : canFulfill (resources (self (fresh ["latte"; "150"])))
                     latte).
    { unfold canFulfill. simpl. lia. }
    assert (Hlow : 150 < Drink.cost latte) by (simpl; lia).
    split; [exact Hbuy |]. split; [exact Hcan |]. split; [exact Hint |].
    split; [exact Hlow |].
    exact (proj1 (payment_decides_the_order stopped_clock py_int _ _ _ _ _
                    Hbuy Hcan Hint) Hlow).
Defined.

Lemma first_shortage_is_reported_witness :
  stock Milk (resources (self (fresh []))) < need Milk milk_bath /\
  stock Coffee (resources (self (fresh []))) < need Coffee milk_bath /\
  (forall res', (rank res' < rank Milk)%nat ->
                need res' milk_bath <= stock res' (resources (self (fresh [])))) /\
  (check_resources milk_bath (fresh [])).1 = Ret false /\
  emitted (check_resources milk_bath) (fresh []) =
    [Printed "❌ Not enough milk."].
Proof.
  assert (Hshort : stock Milk (resources (self (fresh []))) <
                   need Milk milk_bath) by (simpl; lia).
  assert (Hbefore : forall res', (rank res' < rank Milk)%nat ->
            need res' milk_bath <= stock res' (resources (self (fresh [])))).
  { intros []; simpl; lia. }
  split; [exact Hshort |]. split; [simpl; lia |]. split; [exact Hbefore |].
  apply (first_shortage_is_reported Milk milk_bath (fresh []) Hshort Hbefore).
Defined.

Lemma report_needs_the_password_witness :
  (stdin (world (three_orders ["REPORT"; "gcuadmin"; "exit"])) =
     ["REPORT"; "gcuadmin"; "exit"] /\
   lower "REPORT" = "report" /\
   run_body stopped_clock py_int (three_orders ["REPORT"; "gcuadmin"; "exit"]) =
     (Ret Normal,
      mkStore (self (three_orders ["REPORT"; "gcuadmin"; "exit"]))
        (mkWorld ["exit"]
           [Asked menu_prompt;
            Asked password_prompt;
            Printed (nl +:+ "📊 GCU Coffee Machine Report:");
            Printed "Water: 700ml";
            Printed "Milk: 650ml";
            Printed "Coffee: 240g";
            Printed "Total Sales: Rs 400";
            Printed "🧾 Total Orders: 3";
            Printed ""]
           3))) /\
  (stdin (world (fresh ["Report"; "GCUadmin"])) = ["Report"; "GCUadmin"] /\
   lower "Report" = "report" /\
   "GCUadmin" <> "gcuadmin" /\
   run_body stopped_clock py_int (fresh ["Report"; "GCUadmin"]) =
     (Ret Normal,
      mkStore CoffeeMachine__init__
        (mkWorld []
           [Asked menu_prompt;
            Asked password_prompt;
            Printed ("❌ Access denied." +:+ nl)]
           0))).
Proof.
  split.
  - split; [reflexivity |]. split; [reflexivity |].
    destruct (report_needs_the_password stopped_clock py_int
                (three_orders ["REPORT"; "gcuadmin"; "exit"])
                "REPORT" "gcuadmin" ["exit"] eq_refl eq_refl)
      as (out & Hrun & Hgranted & _).
    rewrite (proj2 Hgranted eq_refl) in Hrun. exact Hrun.
  - assert (Hne : "GCUadmin" <> "gcuadmin") by discriminate.
    split; [reflexivity |]. split; [reflexivity |]. split; [exact Hne |].
    destruct (report_needs_the_password stopped_clock py_int
                (fresh ["Report"; "GCUadmin"])
                "Report" "GCUadmin" [] eq_refl eq_refl)
      as (out & Hrun & _ & Hdenied).
    rewrite (proj2 Hdenied Hne) in Hrun. exact Hrun.
Defined.

Lemma ledger_records_the_price_witness :
  purchase (fresh ["latte"; "500"]) latte "500" [] /\
  canFulfill (resources (self (fresh ["latte"; "500"]))) latte /\
  py_int "500" = Some 500 /\
  Drink.cost latte <= 500 /\
  orders (self (after (run_body stopped_clock py_int)
                  (fresh ["latte"; "500"]))) =
    [Order.Build "Latte" 200 (stopped_clock 0%nat)].
Proof.
  assert (Hbuy : purchase (fresh ["latte"; "500"]) latte "500" []).
  { exists "latte". repeat split; try discriminate; reflexivity. }
  assert (Hcan : canFulfill (resources (self (fresh ["latte"; "500"]))) latte).
  { unfold canFulfill. simpl. lia. }
  assert (Hint : py_int "500" = Some 500) by reflexivity.
  assert (Hpaid : Drink.cost latte <= 500) by (simpl; lia).
  split; [exact Hbuy |]. split; [exact Hcan |]. split; [exact Hint |].
  split; [exact Hpaid |].
  exact (proj1 (ledger_records_the_price stopped_clock py_int _ _ _ _ _
                  Hbuy Hcan Hint Hpaid)).
Defined.

(** ** More on a session of the program *)

(** X4.  The machine is never refilled, and every drink of the menu takes
    at least 18 grams of the 300 grams of coffee: whatever is typed, a
    session of the program books at most 16 orders.  Sixteen is reached, by
    sixteen espressos. *)
Theorem a_session_books_at_most_16_orders :
  (forall (clock : nat -> string) (int_of : string -> option Z)
          (lines : list string),
     (length (orders (self (main clock int_of lines).2)) <= 16)%nat) /\
  length (orders (self (main stopped_clock py_int
                          (concat (replicate 16 ["espresso"; "100"]))).2)) =
    16%nat.
Proof.
  split.
  - intros clock int_of lines.
    pose proof (session_capacity clock int_of lines) as [Hpos Hcap].
    simpl in Hpos, Hcap. lia.
  - vm_compute. reflexivity.
Qed.

Lemma run_keeps_stock_nonnegative_witness :
  stock_nonnegative
    (resources (self (fresh ["espresso"; "100"; "latte"; "exit"]))) /\
  stock_nonnegative
    (resources (self (after (run stopped_clock py_int)
                        (fresh ["espresso"; "100"; "latte"; "exit"])))).
Proof.
  assert (Hstock : stock_nonnegative
            (resources (self (fresh ["espresso"; "100"; "latte"; "exit"])))).
  { unfold stock_nonnegative. simpl. lia. }
  split; [exact Hstock |].
  apply (run_keeps_stock_nonnegative stopped_clock py_int _ Hstock).
Defined.

Lemma no_payment_is_asked_when_stock_is_short_witness :
  stdin (world (drained ["Cappuccino"; "250"])) = ["Cappuccino"; "250"] /\
  menu (self (drained ["Cappuccino"; "250"])) !! lower "Cappuccino" =
    Some cappuccino /\
  ~ canFulfill (resources (self (drained ["Cappuccino"; "250"]))) cappuccino /\
  exists res,
    run_body stopped_clock py_int (drained ["Cappuccino"; "250"]) =
      (Ret Normal,
       mkStore (self (drained ["Cappuccino"; "250"]))
         (mkWorld ["250"]
            (stdout (world (drained ["Cappuccino"; "250"])) ++
               [Asked menu_prompt; Printed (diagnostic res)])
            (clock_reads (world (drained ["Cappuccino"; "250"]))))).
Proof.
  assert (Hno : ~ canFulfill
                  (resources (self (drained ["Cappuccino"; "250"])))
                  cappuccino).
  { unfold canFulfill. simpl. lia. }
  split; [reflexivity |]. split; [reflexivity |]. split; [exact Hno |].
  apply (no_payment_is_asked_when_stock_is_short stopped_clock py_int
           (drained ["Cappuccino"; "250"]) "Cappuccino" ["250"] cappuccino);
    try reflexivity; try discriminate; exact Hno.
Defined.

Lemma a_crashed_pass_books_nothing_witness :
  (run_body stopped_clock py_int (fresh ["latte"])).1 = Raise EOFError /\
  self (after (run_body stopped_clock py_int) (fresh ["latte"])) =
    self (fresh ["latte"]).
Proof.
  assert (Hraise : (run_body stopped_clock py_int (fresh ["latte"])).1 =
                   Raise EOFError) by reflexivity.
  split; [exact Hraise |].
  exact (proj1 (proj2 (a_crashed_pass_books_nothing stopped_clock py_int
                         (fresh ["latte"]) EOFError Hraise))).
Defined.

Lemma report_agrees_with_the_ledger_witness :
  let m :=
    self (after (call stopped_clock py_int call_run)
            (fresh ["latte"; "200"; "espresso"; "500"; "exit"])) in
  reachable stopped_clock py_int m /\
  Printed "Total Sales: Rs 300" ∈ report_lines m /\
  Printed "🧾 Total Orders: 2" ∈ report_lines m.
Proof.
  intros m.
  assert (Hreach : reachable stopped_clock py_int m).
  { apply (reachable_call stopped_clock py_int CoffeeMachine__init__
             (mkWorld ["latte"; "200"; "espresso"; "500"; "exit"] [] 0)
             call_run).
    apply reachable_init. }
  split; [exact Hreach |].
  exact (report_agrees_with_the_ledger stopped_clock py_int m Hreach).
Defined.

Lemma a_malformed_amount_cancels_the_order_witness :
  purchase (fresh ["latte"; "two hundred"; "exit"]) latte "two hundred"
           ["exit"] /\
  canFulfill (resources (self (fresh ["latte"; "two hundred"; "exit"])))
             latte /\
  py_int "two hundred" = None /\
  run_body stopped_clock py_int (fresh ["latte"; "two hundred"; "exit"]) =
    (Ret Continue,
     mkStore CoffeeMachine__init__
       (mkWorld ["exit"]
          [Asked menu_prompt;
           Printed "💰 Please pay Rs 200";
           Asked amount_prompt;
           Printed ("❌ Invalid input. Please enter a number." +:+ nl)]
          0)).
Proof.
  assert (Hbuy : purchase (fresh ["latte"; "two hundred"; "exit"]) latte
                   "two hundred" ["exit"]).
  { exists "latte". repeat split; try discriminate; reflexivity. }
  assert (Hcan : canFulfill
                   (resources (self (fresh ["latte"; "two hundred"; "exit"])))
                   latte).
  { unfold canFulfill. simpl. lia. }
  assert (Hint : py_int "two hundred" = None) by reflexivity.
  split; [exact Hbuy |]. split; [exact Hcan |]. split; [exact Hint |].
  exact (a_malformed_amount_cancels_the_order stopped_clock py_int _ _ _ _
           Hbuy Hcan Hint).
Defined.

Lemma a_refused_payment_can_be_retried_witness :
  stdin (world (fresh ["latte"; "150"; "latte"; "200"])) =
    ["latte"; "150"; "latte"; "200"] /\
  py_int "150" = Some 150 /\ 150 < Drink.cost latte /\
  py_int "200" = Some 200 /\ Drink.cost latte <= 200 /\
  self (after (run_body stopped_clock py_int;;
               run_body stopped_clock py_int)
          (fresh ["latte"; "150"; "latte"; "200"])) =
    committed CoffeeMachine__init__ latte (stopped_clock 0%nat).
Proof.
  assert (Hcan : canFulfill
                   (resources (self (fresh ["latte"; "150"; "latte"; "200"])))
                   latte).
  { unfold canFulfill. simpl. lia. }
  assert (Hlow : 150 < Drink.cost latte) by (simpl; lia).
  assert (Hpaid : Drink.cost latte <= 200) by (simpl; lia).
  split; [reflexivity |]. split; [reflexivity |]. split; [exact Hlow |].
  split; [reflexivity |]. split; [exact Hpaid |].
  refine (proj1 (proj2 (a_refused_payment_can_be_retried stopped_clock py_int
                          (fresh ["latte"; "150"; "latte"; "200"]) latte
                          "latte" "150" "200" [] 150 200
                          eq_refl _ _ _ eq_refl Hcan eq_refl Hlow
                          eq_refl Hpaid)));
    discriminate.
Defined.
